(** * Lazy storage replicator: the multi storage client and its two adapters

    A shallow embedding of [src/storage-client.ts],
    [src/azure-blob-storage-client.ts], [src/aws-s3-client.ts] (compiled as
    [dist/aws-s3-client.js]) and [src/multi-storage-client.ts].

    The three classes are asynchronous JavaScript: every method talks to an
    SDK object ([azure.BlobService], [S3], [fs]) and hands back a promise.
    The embedding keeps two things of such a run: the sequence of SDK calls
    it issues (a trace of [Event]s) and the way its promise settles.  What
    the SDKs answer is not in the repository: it is a parameter, the record
    [Sdk], read by every adapter method. *)

From Stdlib Require Import String List ZArith Bool Lia.
Import ListNotations.
Local Open Scope string_scope.
Local Open Scope Z_scope.
Local Open Scope list_scope.

(** ** JavaScript values *)

(** An optional string parameter or field: [None] is [undefined]. *)
Definition JsStr : Type := option string.

(** The values that travel through [any]-typed variables of the source:
    callback arguments, caught errors, method results. *)
Inductive JsVal : Type :=
| VNull
| VUndefined
| VString (s : string)
| VError (name : string) (code : JsStr) (message : string)
| VObject (content : string).

(** An object-typed field: the classes initialise theirs to [null]. *)
Inductive JsRef (A : Type) : Type :=
| RefNull
| RefUndefined
| RefObj (a : A).
Arguments RefNull {A}.
Arguments RefUndefined {A}.
Arguments RefObj {A} a.

Definition isEmpty (s : string) : bool :=
  match s with EmptyString => true | String _ _ => false end.

(** Truthiness, as [||], [&&] and [if] test it. *)
Definition truthyStr (s : JsStr) : bool :=
  match s with
  | Some s => negb (isEmpty s)
  | None => false
  end.

Definition truthy (v : JsVal) : bool :=
  match v with
  | VNull | VUndefined => false
  | VString s => negb (isEmpty s)
  | VError _ _ _ | VObject _ => true
  end.

(** [a || b] on optional strings. *)
Definition jsOr (a b : JsStr) : JsStr := if truthyStr a then a else b.

(** [v.code] for a truthy [v]. *)
Definition codeOf (v : JsVal) : JsStr :=
  match v with
  | VError _ code _ => code
  | _ => None
  end.

(** ['...' + v] *)
Definition toString (v : JsVal) : string :=
  match v with
  | VNull => "null"
  | VUndefined => "undefined"
  | VString s => s
  | VError name _ message => (name ++ ": " ++ message)%string
  | VObject _ => "[object Object]"
  end.

Definition strictEqStr (a : JsStr) (b : string) : bool :=
  match a with
  | Some a => String.eqb a b
  | None => false
  end.

(** [new Error(message)] and the error of a member access on [null]. *)
Definition newError (message : string) : JsVal := VError "Error" None message.
Definition typeError : JsVal :=
  VError "TypeError" None "Cannot read property of null or undefined".

(** storage-client.ts *)
Definition ERROR_CODE_NOT_FOUND : string := "NotFound".

(** ** Promises, traces and the SDKs *)

(** How a promise settles; for a synchronous call, [Rejected] is a throw. *)
Inductive Settled (A : Type) : Type :=
| Resolved (a : A)
| Rejected (reason : JsVal).
Arguments Resolved {A} a.
Arguments Rejected {A} reason.

(** The calls that leave the three classes. *)
Inductive Event : Type :=
| EvGetBlobProperties (container : JsStr) (blob : string)
| EvListBlobsSegmentedWithPrefix (container prefix : JsStr)
| EvGetBlobToLocalFile (container : JsStr) (blob localFilePath : string)
| EvCreateBlockBlobFromLocalFile (container : JsStr) (blob localFilePath : string)
| EvDeleteBlob (container : JsStr) (blob : string)
| EvHeadObject (bucket : JsStr) (key : string)
| EvListObjectsV2 (bucket prefix : JsStr)
| EvGetObject (bucket : JsStr) (key : string)
| EvCreateWriteStream (localFilePath : string)
| EvGetObjectReadStream (bucket : JsStr) (key : string)
| EvUnlink (localFilePath : string)
| EvCreateReadStream (localFilePath : string)
| EvUpload (bucket : JsStr) (key body contentType : string)
| EvDeleteObjects (bucket : JsStr) (keys : list string)
| EvConsoleError (message : string).

(** What the SDKs answer.  The Azure SDK and [S3.upload]/[S3.headObject]
    report through a callback, whose arguments are given here; the other S3
    calls are used through [.promise()] or as a stream. *)
Record Sdk : Type := {
  (** callback [(error, properties, status)]: [error], [status.isSuccessful] *)
  getBlobProperties : JsStr -> string -> JsVal * bool;
  (** callback [(error, result, response)]: [error] and [result], [None]
      when falsy, otherwise the [name]s of [result.entries] *)
  listBlobsSegmentedWithPrefix : JsStr -> JsStr -> JsVal * option (list string);
  (** callback [(error, result)] *)
  getBlobToLocalFile : JsStr -> string -> string -> JsVal * JsVal;
  (** callback [(error, result, response)]: [error], [result] *)
  createBlockBlobFromLocalFile : JsStr -> string -> string -> JsVal * JsVal;
  (** callback [(error, response)]: [error] *)
  deleteBlob : JsStr -> string -> JsVal;
  (** callback [(error, metadata)]: [error] *)
  headObject : JsStr -> string -> JsVal;
  (** [.promise()]: the [Key]s of [Contents] *)
  listObjectsV2 : JsStr -> JsStr -> Settled (list string);
  (** [.promise()] *)
  getObject : JsStr -> string -> Settled JsVal;
  (** [.createReadStream()]: [Some error] when the stream emits ['error'],
      [None] when it is piped to the end *)
  getObjectReadStream : JsStr -> string -> option JsVal;
  (** callback [(error, sendData)], by bucket, key, body and content type *)
  upload : JsStr -> string -> string -> string -> JsVal * JsVal;
  (** [.promise()] *)
  deleteObjects : JsStr -> list string -> Settled JsVal;
  (** [mime.lookup(path, fallback)] *)
  mimeLookup : string -> string -> string
}.

(** A run: the calls issued so far and how the promise settles. *)
Definition M (A : Type) : Type := (list Event * Settled A)%type.

Definition ret {A : Type} (a : A) : M A := ([], Resolved a).
Definition throw {A : Type} (v : JsVal) : M A := ([], Rejected v).
Definition emit (e : Event) : M unit := ([e], Resolved tt).

Definition bind {A B : Type} (m : M A) (f : A -> M B) : M B :=
  match m with
  | (t, Resolved a) => let (t', r) := f a in (t ++ t', r)
  | (t, Rejected v) => (t, Rejected v)
  end.

(** [try { body } catch (error) { handler }] *)
Definition tryCatch {A : Type} (body : M A) (handler : JsVal -> M A) : M A :=
  match body with
  | (t, Resolved a) => (t, Resolved a)
  | (t, Rejected v) => let (t', r) := handler v in (t ++ t', r)
  end.

(** [p = f(...)] without [await]: the call is issued, its promise is kept. *)
Definition start {A : Type} (call : M A) : M (Settled A) :=
  (fst call, Resolved (snd call)).

(** [await p] *)
Definition await {A : Type} (p : Settled A) : M A := ([], p).

(** [r.m(...)]: a member access on a reference. *)
Definition member {A : Type} (r : JsRef A) : M A :=
  match r with
  | RefObj a => ret a
  | RefNull | RefUndefined => throw typeError
  end.

Definition trace {A : Type} (m : M A) : list Event := fst m.
Definition settles {A : Type} (m : M A) : Settled A := snd m.

Declare Scope async_scope.
Delimit Scope async_scope with async.
Notation "x <- c1 ;; c2" := (bind c1 (fun x => c2))
  (at level 61, c1 at next level, right associativity) : async_scope.
Notation "c1 ;; c2" := (bind c1 (fun _ => c2))
  (at level 61, right associativity) : async_scope.
Local Open Scope async_scope.

(** ** azure-blob-storage-client.ts *)

Module AzureBlobStorageClient.

Record BlobService : Type := {
  storageAccount : string;
  storageAccessKey : string
}.

Record t : Type := {
  azureBlobService : JsRef BlobService;
  defaultContainerName : JsStr
}.

(** The field initialisers. *)
Definition new : t :=
  {| azureBlobService := RefNull; defaultContainerName := Some "" |}.

Definition isInitialized (this : t) : bool :=
  match azureBlobService this with
  | RefUndefined => false
  | RefNull | RefObj _ => true
  end.

Definition initialize (this : t) (blobStorageAccountName blobStorageAccessKey : string)
    (defaultContainerName : JsStr) : t :=
  {| azureBlobService :=
       RefObj {| storageAccount := blobStorageAccountName;
                 storageAccessKey := blobStorageAccessKey |};
     defaultContainerName := defaultContainerName |}.

Definition getDefaultContainerName (this : t) : JsStr :=
  defaultContainerName this.

Section Methods.
Context (sdk : Sdk).

Definition fileExists (this : t) (blobName : string) (containerName : JsStr) : M bool :=
  let containerName := jsOr containerName (defaultContainerName this) in
  _ <- member (azureBlobService this) ;;
  emit (EvGetBlobProperties containerName blobName) ;;
  let '(error, isSuccessful) := getBlobProperties sdk containerName blobName in
  if truthy error || negb isSuccessful then ret false else ret true.

Definition listFilesWithPrefix (this : t) (blobNamePrefix containerName : JsStr)
    : M (list string) :=
  let containerName := jsOr containerName (defaultContainerName this) in
  _ <- member (azureBlobService this) ;;
  emit (EvListBlobsSegmentedWithPrefix containerName blobNamePrefix) ;;
  let '(error, result) :=
    listBlobsSegmentedWithPrefix sdk containerName blobNamePrefix in
  match result with
  | Some entries => ret entries
  | None => throw error
  end.

(** [_.pluck(result.entries, BLOB_NAME_KEY)]: the entries are kept by
    name already. *)
Definition listFileNamesWithPrefix (this : t) (blobNamePrefix containerName : JsStr)
    : M (list string) :=
  let containerName := jsOr containerName (defaultContainerName this) in
  tryCatch
    (result <- listFilesWithPrefix this blobNamePrefix containerName ;;
     ret result)
    (fun errorMessage => throw errorMessage).

Definition downloadFile (this : t) (blobName : string) (containerName : JsStr)
    : M JsVal :=
  throw (newError "Method not implemented").

Definition downloadFileToDisk (this : t) (blobName localFilePath : string)
    (containerName : JsStr) : M JsVal :=
  let containerName := jsOr containerName (defaultContainerName this) in
  _ <- member (azureBlobService this) ;;
  emit (EvGetBlobToLocalFile containerName blobName localFilePath) ;;
  let '(error, result) :=
    getBlobToLocalFile sdk containerName blobName localFilePath in
  if truthy result then ret result else throw error.

Definition uploadFile (this : t) (localFilePath blobName : string)
    (containerName : JsStr) : M JsVal :=
  let containerName := jsOr containerName (defaultContainerName this) in
  _ <- member (azureBlobService this) ;;
  emit (EvCreateBlockBlobFromLocalFile containerName blobName localFilePath) ;;
  let '(error, result) :=
    createBlockBlobFromLocalFile sdk containerName blobName localFilePath in
  if truthy result then ret result else throw error.

(** [blobNames.map(blobName => deleteBlob(containerName, blobName,
    function() {}))]: the callback drops what [deleteBlob] reports, and
    the values mapped to are not promises. *)
Fixpoint deleteBlobs (this : t) (blobNames : list string) (containerName : JsStr)
    : M unit :=
  match blobNames with
  | [] => ret tt
  | blobName :: rest =>
      _ <- member (azureBlobService this) ;;
      emit (EvDeleteBlob containerName blobName) ;;
      let _error := deleteBlob sdk containerName blobName in
      deleteBlobs this rest containerName
  end.

Definition deleteFiles (this : t) (blobNames : list string) (containerName : JsStr)
    : M JsVal :=
  let containerName := jsOr containerName (defaultContainerName this) in
  deleteBlobs this blobNames containerName ;;
  ret (VObject "Array").

Definition deleteFile (this : t) (blobName : string) (containerName : JsStr)
    : M JsVal :=
  let containerName := jsOr containerName (defaultContainerName this) in
  _ <- member (azureBlobService this) ;;
  emit (EvDeleteBlob containerName blobName) ;;
  let error := deleteBlob sdk containerName blobName in
  if truthy error then throw error else ret (VObject "response").

End Methods.

End AzureBlobStorageClient.

(** ** aws-s3-client.ts *)

Module AwsS3Client.

Definition DEFAULT_S3_API_VERSION : string := "2006-03-01".
Definition DEFAULT_CONTENT_TYPE : string := "application/octet-stream".

Record S3 : Type := {
  region : string;
  apiVersion : string;
  accessKeyId : string;
  secretAccessKey : string
}.

Record t : Type := {
  s3Client : JsRef S3;
  defaultBucketName : JsStr
}.

(** The field initialisers. *)
Definition new : t :=
  {| s3Client := RefNull; defaultBucketName := Some "" |}.

Definition isInitialized (this : t) : bool :=
  match s3Client this with
  | RefUndefined => false
  | RefNull | RefObj _ => true
  end.

Definition initialize (this : t) (accessKeyId secretAccessKey region : string)
    (defaultBucketName s3ApiVersion : JsStr) : t :=
  let s3ApiVersion := jsOr s3ApiVersion (Some DEFAULT_S3_API_VERSION) in
  {| s3Client :=
       RefObj {| region := region;
                 apiVersion := match s3ApiVersion with
                               | Some v => v
                               | None => DEFAULT_S3_API_VERSION
                               end;
                 accessKeyId := accessKeyId;
                 secretAccessKey := secretAccessKey |};
     defaultBucketName := defaultBucketName |}.

Definition getDefaultBucketName (this : t) : JsStr :=
  defaultBucketName this.

Section Methods.
Context (sdk : Sdk).

Definition fileExists (this : t) (fileKey : string) (bucketName : JsStr) : M bool :=
  let bucketName := jsOr bucketName (defaultBucketName this) in
  _ <- member (s3Client this) ;;
  emit (EvHeadObject bucketName fileKey) ;;
  let error := headObject sdk bucketName fileKey in
  if truthy error && strictEqStr (codeOf error) ERROR_CODE_NOT_FOUND
  then ret false
  else ret true.

(** The listing is kept as the [Key]s of its [Contents]. *)
Definition listFilesWithPrefix (this : t) (storageFileNamePrefix bucketName : JsStr)
    : M (list string) :=
  let bucketName := jsOr bucketName (defaultBucketName this) in
  let prefix := if truthyStr storageFileNamePrefix then storageFileNamePrefix else None in
  _ <- member (s3Client this) ;;
  emit (EvListObjectsV2 bucketName prefix) ;;
  await (listObjectsV2 sdk bucketName prefix).

(** [_.pluck(result.Contents, FILE_KEY)] *)
Definition listFileNamesWithPrefix (this : t) (storageFileNamePrefix bucketName : JsStr)
    : M (list string) :=
  result <- listFilesWithPrefix this storageFileNamePrefix bucketName ;;
  ret result.

Definition downloadFile (this : t) (fileKey : string) (bucketName : JsStr) : M JsVal :=
  let bucketName := jsOr bucketName (defaultBucketName this) in
  _ <- member (s3Client this) ;;
  emit (EvGetObject bucketName fileKey) ;;
  await (getObject sdk bucketName fileKey).

Definition downloadFileToDisk (this : t) (fileKey localFilePath : string)
    (bucketName : JsStr) : M JsVal :=
  let bucketName := jsOr bucketName (defaultBucketName this) in
  emit (EvCreateWriteStream localFilePath) ;;
  _ <- member (s3Client this) ;;
  emit (EvGetObjectReadStream bucketName fileKey) ;;
  match getObjectReadStream sdk bucketName fileKey with
  | Some error => emit (EvUnlink localFilePath) ;; throw error
  | None => ret VUndefined
  end.

Definition uploadFile (this : t) (localFilePath fileKey : string)
    (bucketName contentType : JsStr) : M JsVal :=
  let bucketName := jsOr bucketName (defaultBucketName this) in
  emit (EvCreateReadStream localFilePath) ;;
  let contentType :=
    match contentType with
    | None => mimeLookup sdk localFilePath DEFAULT_CONTENT_TYPE
    | Some contentType => contentType
    end in
  _ <- member (s3Client this) ;;
  emit (EvUpload bucketName fileKey localFilePath contentType) ;;
  let '(error, sendData) := upload sdk bucketName fileKey localFilePath contentType in
  if truthy error then throw error else ret sendData.

Definition deleteFiles (this : t) (fileKeys : list string) (bucketName : JsStr) : M JsVal :=
  let bucketName := jsOr bucketName (defaultBucketName this) in
  _ <- member (s3Client this) ;;
  emit (EvDeleteObjects bucketName fileKeys) ;;
  await (deleteObjects sdk bucketName fileKeys).

End Methods.

Section DeleteFile.
(** [S3.deleteObject(parameters, callback)], which [Sdk] does not hold: the
    calls it issues and the arguments [(error, data)] of its callback, by
    bucket and by the [Delete] field. *)
Context (deleteObject : JsStr -> string -> list Event * (JsVal * JsVal)).

(** The executor handed to [new Promise] is a [function], not an arrow
    function: its [this] is not the client but [undefined] (the module is
    in strict mode), and the executor's throw rejects the promise. *)
Definition deleteFile (this : t) (fileKey : string) (bucketName : JsStr) : M JsVal :=
  let bucketName := jsOr bucketName (defaultBucketName this) in
  let executorThis : JsRef t := RefUndefined in
  this <- member executorThis ;;
  _ <- member (s3Client this) ;;
  let '(issued, (error, data)) := deleteObject bucketName fileKey in
  (issued, if truthy error then Rejected error else Resolved data).

End DeleteFile.

End AwsS3Client.

(** ** multi-storage-client.ts *)

Module StorageType.
Definition Undefined : Z := 0.
Definition AzureBlobStorage : Z := 1.
Definition AwsS3 : Z := 2.
Definition Both : Z := 3.
End StorageType.

(** [if (storages & flag)] *)
Definition hasFlag (storages flag : Z) : bool := negb (Z.land storages flag =? 0).

Module MultiStorageClient.

Record t : Type := {
  azureBlobStorageClient : JsRef AzureBlobStorageClient.t;
  awsS3Client : JsRef AwsS3Client.t
}.

(** The field initialisers. *)
Definition new : t :=
  {| azureBlobStorageClient := RefNull; awsS3Client := RefNull |}.

(** Not an [async] method: [Rejected] stands for a throw. *)
Definition isInitialized (this : t) : M bool :=
  azure <- member (azureBlobStorageClient this) ;;
  if AzureBlobStorageClient.isInitialized azure
  then aws <- member (awsS3Client this) ;; ret (AwsS3Client.isInitialized aws)
  else ret false.

Definition initialize (this : t)
    (azureBlobStorageAccountName azureBlobStorageAccessKey : string)
    (awsS3AccessKeyId awsS3SecretAccessKey awsS3Region : string)
    (defaultAzureBlobStorageContainerName defaultAwsS3BucketName : JsStr) : t :=
  {| azureBlobStorageClient :=
       RefObj (AzureBlobStorageClient.initialize AzureBlobStorageClient.new
                 azureBlobStorageAccountName azureBlobStorageAccessKey
                 defaultAzureBlobStorageContainerName);
     awsS3Client :=
       RefObj (AwsS3Client.initialize AwsS3Client.new
                 awsS3AccessKeyId awsS3SecretAccessKey awsS3Region
                 defaultAwsS3BucketName None) |}.

(** The two lines every method below starts with:
    [containerName = containerName || this.azureBlobStorageClient.getDefaultContainerName();]
    [bucketName = bucketName || this.awsS3Client.getDefaultBucketName() || containerName;]
    ([||] does not evaluate its right operand when the left one is truthy). *)
Definition resolveContainerName (this : t) (containerName : JsStr) : M JsStr :=
  if truthyStr containerName then ret containerName
  else azure <- member (azureBlobStorageClient this) ;;
       ret (AzureBlobStorageClient.getDefaultContainerName azure).

Definition resolveBucketName (this : t) (bucketName containerName : JsStr) : M JsStr :=
  bucketName <- (if truthyStr bucketName then ret bucketName
                 else aws <- member (awsS3Client this) ;;
                      ret (AwsS3Client.getDefaultBucketName aws)) ;;
  ret (jsOr bucketName containerName).

Section Methods.
Context (sdk : Sdk).

Definition storagesContainingFile (this : t) (storageFilePath : string)
    (containerName bucketName : JsStr) : M Z :=
  containerName <- resolveContainerName this containerName ;;
  bucketName <- resolveBucketName this bucketName containerName ;;
  let result := StorageType.Undefined in
  azure <- member (azureBlobStorageClient this) ;;
  fileExistsBlob <- AzureBlobStorageClient.fileExists sdk azure storageFilePath containerName ;;
  aws <- member (awsS3Client this) ;;
  fileExistsAws <- AwsS3Client.fileExists sdk aws storageFilePath bucketName ;;
  let result :=
    if fileExistsBlob : bool then Z.lor result StorageType.AzureBlobStorage else result in
  let result :=
    if fileExistsAws : bool then Z.lor result StorageType.AwsS3 else result in
  ret result.

Definition fileExists (this : t) (storageFilePath : string)
    (containerName bucketName : JsStr) : M bool :=
  storages <- storagesContainingFile this storageFilePath containerName bucketName ;;
  ret (negb (storages =? StorageType.Undefined)).

Definition listFilesWithPrefix (this : t) (storageFileNamePrefix containerName bucketName : JsStr)
    : M (option (list string) * list string) :=
  containerName <- resolveContainerName this containerName ;;
  bucketName <- resolveBucketName this bucketName containerName ;;
  let blobsFoundInAzureBlobStorage := None in
  blobsFoundInAzureBlobStorage <-
    tryCatch
      (azure <- member (azureBlobStorageClient this) ;;
       blobs <- AzureBlobStorageClient.listFilesWithPrefix sdk azure
                  storageFileNamePrefix containerName ;;
       ret (Some blobs))
      (fun error =>
         emit (EvConsoleError ("Failed to list files: " ++ toString error)%string) ;;
         ret blobsFoundInAzureBlobStorage) ;;
  aws <- member (awsS3Client this) ;;
  filesFoundInS3 <- AwsS3Client.listFilesWithPrefix sdk aws storageFileNamePrefix bucketName ;;
  ret (blobsFoundInAzureBlobStorage, filesFoundInS3).

(** [fileNames.concat(...)] builds a new array and leaves [fileNames] as it
    is; the statement drops the new array. *)
Definition listFileNamesWithPrefix (this : t)
    (storageFileNamePrefix containerName bucketName : JsStr) : M (list string) :=
  containerName <- resolveContainerName this containerName ;;
  bucketName <- resolveBucketName this bucketName containerName ;;
  let fileNames := [] in
  fileNames <-
    tryCatch
      (azure <- member (azureBlobStorageClient this) ;;
       AzureBlobStorageClient.listFileNamesWithPrefix sdk azure
         storageFileNamePrefix containerName)
      (fun error =>
         emit (EvConsoleError ("Failed to list file names: " ++ toString error)%string) ;;
         ret fileNames) ;;
  aws <- member (awsS3Client this) ;;
  s3Names <- AwsS3Client.listFileNamesWithPrefix sdk aws storageFileNamePrefix bucketName ;;
  let _concatenated := fileNames ++ s3Names in
  ret fileNames.

Definition downloadFileToDiskAndReplicateIfNecessary (this : t)
    (storageFilePath localFilePath : string) (containerName bucketName : JsStr) : M JsVal :=
  containerName <- resolveContainerName this containerName ;;
  bucketName <- resolveBucketName this bucketName containerName ;;
  storagesContainingFile <- storagesContainingFile this storageFilePath containerName bucketName ;;
  let result := VNull in
  tryCatch
    (if storagesContainingFile =? StorageType.Undefined then
       ret (VString ERROR_CODE_NOT_FOUND)
     else if storagesContainingFile =? Z.lor StorageType.AzureBlobStorage StorageType.AwsS3 then
       azure <- member (azureBlobStorageClient this) ;;
       AzureBlobStorageClient.downloadFileToDisk sdk azure storageFilePath localFilePath containerName ;;
       ret result
     else if storagesContainingFile =? StorageType.AzureBlobStorage then
       azure <- member (azureBlobStorageClient this) ;;
       AzureBlobStorageClient.downloadFileToDisk sdk azure storageFilePath localFilePath containerName ;;
       aws <- member (awsS3Client this) ;;
       AwsS3Client.uploadFile sdk aws localFilePath storageFilePath bucketName None ;;
       ret result
     else if storagesContainingFile =? StorageType.AwsS3 then
       aws <- member (awsS3Client this) ;;
       AwsS3Client.downloadFileToDisk sdk aws storageFilePath localFilePath bucketName ;;
       azure <- member (azureBlobStorageClient this) ;;
       AzureBlobStorageClient.uploadFile sdk azure localFilePath storageFilePath containerName ;;
       ret result
     else ret result)
    (fun error => ret error).

Definition downloadFile (this : t) (storageFilePath : string)
    (containerName bucketName : JsStr) : M JsVal :=
  containerName <- resolveContainerName this containerName ;;
  bucketName <- resolveBucketName this bucketName containerName ;;
  storagesContainingFile <- storagesContainingFile this storageFilePath containerName bucketName ;;
  let result := VNull in
  tryCatch
    (if storagesContainingFile =? StorageType.Undefined then
       ret (VString ERROR_CODE_NOT_FOUND)
     else if hasFlag storagesContainingFile StorageType.AzureBlobStorage then
       azure <- member (azureBlobStorageClient this) ;;
       AzureBlobStorageClient.downloadFile azure storageFilePath containerName
     else if hasFlag storagesContainingFile StorageType.AwsS3 then
       aws <- member (awsS3Client this) ;;
       AwsS3Client.downloadFile sdk aws storageFilePath bucketName
     else ret result)
    (fun error => ret error).

Definition downloadFileToDisk (this : t) (storageFilePath localFilePath : string)
    (containerName bucketName : JsStr) : M JsVal :=
  containerName <- resolveContainerName this containerName ;;
  bucketName <- resolveBucketName this bucketName containerName ;;
  storagesContainingFile <- storagesContainingFile this storageFilePath containerName bucketName ;;
  let result := VNull in
  tryCatch
    (if storagesContainingFile =? StorageType.Undefined then
       ret (VString ERROR_CODE_NOT_FOUND)
     else if hasFlag storagesContainingFile StorageType.AzureBlobStorage then
       azure <- member (azureBlobStorageClient this) ;;
       AzureBlobStorageClient.downloadFileToDisk sdk azure storageFilePath localFilePath containerName ;;
       ret result
     else if hasFlag storagesContainingFile StorageType.AwsS3 then
       aws <- member (awsS3Client this) ;;
       AwsS3Client.downloadFileToDisk sdk aws storageFilePath localFilePath bucketName ;;
       ret result
     else ret result)
    (fun error => ret error).

(** [await p] for a variable that holds a promise or was left [undefined]. *)
Definition awaitVar (p : option (Settled JsVal)) : M JsVal :=
  match p with
  | Some p => await p
  | None => ret VUndefined
  end.

Definition uploadFileToStorage (this : t) (localFilePath storageFilePath : string)
    (storageToUse : option Z) (containerName bucketName contentType : JsStr) : M Z :=
  let storageToUse :=
    match storageToUse with
    | Some s => if s =? 0 then Z.lor StorageType.AzureBlobStorage StorageType.AwsS3 else s
    | None => Z.lor StorageType.AzureBlobStorage StorageType.AwsS3
    end in
  containerName <- resolveContainerName this containerName ;;
  bucketName <- resolveBucketName this bucketName containerName ;;
  let storagesWhereFileWasUploaded := StorageType.Undefined in
  azurePromise <-
    (if hasFlag storageToUse StorageType.AzureBlobStorage then
       azure <- member (azureBlobStorageClient this) ;;
       p <- start (AzureBlobStorageClient.uploadFile sdk azure localFilePath storageFilePath
                     containerName) ;;
       ret (Some p)
     else ret None) ;;
  awsPromise <-
    (if hasFlag storageToUse StorageType.AwsS3 then
       aws <- member (awsS3Client this) ;;
       p <- start (AwsS3Client.uploadFile sdk aws localFilePath storageFilePath
                     bucketName contentType) ;;
       ret (Some p)
     else ret None) ;;
  storagesWhereFileWasUploaded <-
    (if hasFlag storageToUse StorageType.AzureBlobStorage then
       tryCatch
         (awaitVar azurePromise ;;
          ret (Z.lor storagesWhereFileWasUploaded StorageType.AzureBlobStorage))
         (fun error =>
            emit (EvConsoleError
                    ("Failed to upload file to Azure Blob Storage: " ++ toString error)%string) ;;
            ret storagesWhereFileWasUploaded)
     else ret storagesWhereFileWasUploaded) ;;
  storagesWhereFileWasUploaded <-
    (if hasFlag storageToUse StorageType.AwsS3 then
       tryCatch
         (awaitVar awsPromise ;;
          ret (Z.lor storagesWhereFileWasUploaded StorageType.AwsS3))
         (fun error =>
            emit (EvConsoleError
                    ("Failed to upload file to AWS S3: " ++ toString error)%string) ;;
            ret storagesWhereFileWasUploaded)
     else ret storagesWhereFileWasUploaded) ;;
  ret storagesWhereFileWasUploaded.

Definition deleteFiles (this : t) (filePaths : list string)
    (containerName bucketName : JsStr) : M JsVal :=
  containerName <- resolveContainerName this containerName ;;
  bucketName <- resolveBucketName this bucketName containerName ;;
  let result := VNull in
  azure <- member (azureBlobStorageClient this) ;;
  azurePromise <- start (AzureBlobStorageClient.deleteFiles sdk azure filePaths containerName) ;;
  aws <- member (awsS3Client this) ;;
  awsPromise <- start (AwsS3Client.deleteFiles sdk aws filePaths bucketName) ;;
  result <- tryCatch (await azurePromise ;; ret result) (fun error => ret error) ;;
  result <- tryCatch (await awsPromise ;; ret result) (fun error => ret error) ;;
  ret result.

Definition deleteFile (this : t) (filePath : string)
    (containerName bucketName : JsStr) : M JsVal :=
  let filePaths := [filePath] in
  deleteFiles this filePaths containerName bucketName.

(** [new Promise(function (resolve) { uploadFileToStorage(...).then(function
    (result) { resolve(result); }); })]: the promise has no way to be
    rejected, and when [uploadFileToStorage] rejects nothing settles it:
    [None] is the promise that stays pending. *)
Definition uploadFile (this : t) (localFilePath storageFilePath : string)
    (containerAndBucketName : JsStr) : list Event * option (Settled Z) :=
  let thisInstance := this in
  let upload :=
    uploadFileToStorage thisInstance localFilePath storageFilePath
      (Some (Z.lor StorageType.AzureBlobStorage StorageType.AwsS3))
      containerAndBucketName None None in
  (trace upload,
   match settles upload with
   | Resolved result => Some (Resolved result)
   | Rejected _ => None
   end).

End Methods.

End MultiStorageClient.

(** ** The scopes a call ends up addressing

    Written out from the two resolution lines of the multi client followed
    by the adapter's own [name || this.default...]: [defaultContainer] and
    [defaultBucket] are the defaults the adapters were initialised with. *)

Definition effectiveContainer (containerName defaultContainer : JsStr) : JsStr :=
  if truthyStr containerName then containerName else defaultContainer.

Definition effectiveBucket (containerName bucketName defaultContainer defaultBucket : JsStr)
    : JsStr :=
  if truthyStr bucketName then bucketName
  else if truthyStr defaultBucket then defaultBucket
  else if truthyStr containerName then containerName
  else if truthyStr defaultContainer then defaultContainer
  else defaultBucket.

(** What a presence probe of the SDK says. *)
Definition azureProbeError (sdk : Sdk) (container : JsStr) (blob : string) : bool :=
  truthy (fst (getBlobProperties sdk container blob)).

Definition azureProbeSuccessful (sdk : Sdk) (container : JsStr) (blob : string) : bool :=
  snd (getBlobProperties sdk container blob).

Definition s3ProbeError (sdk : Sdk) (bucket : JsStr) (key : string) : bool :=
  truthy (headObject sdk bucket key).

Definition s3ProbeNotFound (sdk : Sdk) (bucket : JsStr) (key : string) : bool :=
  truthy (headObject sdk bucket key)
  && strictEqStr (codeOf (headObject sdk bucket key)) ERROR_CODE_NOT_FOUND.

(** A probe fault: an error that is not the not-found condition. *)
Definition isNotFound (error : JsVal) : bool :=
  strictEqStr (codeOf error) ERROR_CODE_NOT_FOUND.

Definition azureProbeFault (sdk : Sdk) (container : JsStr) (blob : string) : bool :=
  azureProbeError sdk container blob
  && negb (isNotFound (fst (getBlobProperties sdk container blob))).

Definition s3ProbeFault (sdk : Sdk) (bucket : JsStr) (key : string) : bool :=
  s3ProbeError sdk bucket key && negb (isNotFound (headObject sdk bucket key)).

(** Events that create or write a file on the local disk. *)
Definition writesLocalFile (e : Event) : bool :=
  match e with
  | EvGetBlobToLocalFile _ _ _ | EvCreateWriteStream _ => true
  | _ => false
  end.

(** Events that store an object in a backend. *)
Definition isUpload (e : Event) : bool :=
  match e with
  | EvCreateBlockBlobFromLocalFile _ _ _ | EvUpload _ _ _ _ => true
  | _ => false
  end.

(** ** Sample SDK behaviours *)

Definition notFoundError : JsVal := VError "NotFound" (Some "NotFound") "Not Found".
Definition timeoutError : JsVal := VError "TimeoutError" (Some "TimeoutError") "Connection timed out".
Definition blobNotFoundError : JsVal :=
  VError "StorageError" (Some "BlobNotFound") "The specified blob does not exist.".

(** An SDK that answers every call of a kind in the same way. *)
Definition constantSdk (azureProbe : JsVal * bool) (s3Probe : JsVal)
    (azureListing : JsVal * option (list string)) (s3Listing : Settled (list string))
    (azureFetch : JsVal * JsVal) (s3Fetch : Settled JsVal) (s3Stream : option JsVal)
    (azureStore : JsVal * JsVal) (s3Store : JsVal * JsVal)
    (azureDelete : JsVal) (s3Delete : Settled JsVal) : Sdk :=
  {| getBlobProperties := fun _ _ => azureProbe;
     listBlobsSegmentedWithPrefix := fun _ _ => azureListing;
     getBlobToLocalFile := fun _ _ _ => azureFetch;
     createBlockBlobFromLocalFile := fun _ _ _ => azureStore;
     deleteBlob := fun _ _ => azureDelete;
     headObject := fun _ _ => s3Probe;
     listObjectsV2 := fun _ _ => s3Listing;
     getObject := fun _ _ => s3Fetch;
     getObjectReadStream := fun _ _ => s3Stream;
     upload := fun _ _ _ _ => s3Store;
     deleteObjects := fun _ _ => s3Delete;
     mimeLookup := fun _ fallback => fallback |}.

(** Both services reachable and working; which of them hold the object and
    what the listings return is left open. *)
Definition workingSdk (inAzure inS3 : bool) (azureNames s3Names : list string) : Sdk :=
  constantSdk
    (if inAzure then (VNull, true) else (blobNotFoundError, false))
    (if inS3 then VNull else notFoundError)
    (VNull, Some azureNames) (Resolved s3Names)
    (VNull, VObject "blob") (Resolved (VObject "payload")) None
    (VNull, VObject "blob") (VNull, VObject "sendData")
    VNull (Resolved (VObject "deleted")).

(** Azure cannot be reached; S3 answers and does not hold the object. *)
Definition azureUnreachableSdk : Sdk :=
  constantSdk
    (timeoutError, false) notFoundError
    (timeoutError, None) (Resolved [])
    (timeoutError, VNull) (Rejected notFoundError) (Some notFoundError)
    (timeoutError, VNull) (VNull, VObject "sendData")
    timeoutError (Resolved (VObject "deleted")).

(** The claim of the specification about probe faults, at one call: a
    fault of either probe makes [storagesContainingFile] fail. *)
Definition failsOnProbeFault (sdk : Sdk) (this : MultiStorageClient.t) (path : string)
    (containerName bucketName effContainer effBucket : JsStr) : Prop :=
  azureProbeFault sdk effContainer path = true \/ s3ProbeFault sdk effBucket path = true ->
  exists reason,
    settles (MultiStorageClient.storagesContainingFile sdk this path containerName bucketName)
    = Rejected reason.

(** The claim of the specification about [downloadFile], at one call:
    whenever some backend is reported present, the object payload comes
    back. *)
Definition readReturnsPayload (sdk : Sdk) (this : MultiStorageClient.t) (path : string)
    (containerName bucketName : JsStr) : Prop :=
  forall storages,
    settles (MultiStorageClient.storagesContainingFile sdk this path containerName bucketName)
    = Resolved storages ->
    storages <> StorageType.Undefined ->
    exists content,
      settles (MultiStorageClient.downloadFile sdk this path containerName bucketName)
      = Resolved (VObject content).

(** Both services hold the object; S3 refuses the listing. *)
Definition s3ListingFailsSdk : Sdk :=
  constantSdk
    (VNull, true) VNull
    (VNull, Some ["a.jpg"]) (Rejected timeoutError)
    (VNull, VObject "blob") (Resolved (VObject "payload")) None
    (VNull, VObject "blob") (VNull, VObject "sendData")
    VNull (Resolved (VObject "deleted")).

(** Everything works but the store into S3. *)
Definition s3StoreFailsSdk : Sdk :=
  constantSdk
    (VNull, true) VNull
    (VNull, Some []) (Resolved [])
    (VNull, VObject "blob") (Resolved (VObject "payload")) None
    (VNull, VObject "blob") (timeoutError, VUndefined)
    VNull (Resolved (VObject "deleted")).

(** Everything works but the deletion of blobs from Azure. *)
Definition azureDeleteFailsSdk : Sdk :=
  constantSdk
    (VNull, true) VNull
    (VNull, Some []) (Resolved [])
    (VNull, VObject "blob") (Resolved (VObject "payload")) None
    (VNull, VObject "blob") (VNull, VObject "sendData")
    timeoutError (Resolved (VObject "deleted")).

(** The scope resolution the specification describes: an omitted name
    falls back to the backend's own default and, that being empty, to the
    scope configured for the other backend, on either side. *)
Definition specContainer (containerName defaultContainer defaultBucket : JsStr) : JsStr :=
  if truthyStr containerName then containerName
  else if truthyStr defaultContainer then defaultContainer
  else defaultBucket.

Definition specBucket (bucketName defaultContainer defaultBucket : JsStr) : JsStr :=
  if truthyStr bucketName then bucketName
  else if truthyStr defaultBucket then defaultBucket
  else defaultContainer.

(** The claim of the specification about [listFileNamesWithPrefix], at one
    call, given what the two listings answer ([None]: the listing failed). *)
Definition listsBothBackends (run : M (list string))
    (azureNames s3Names : option (list string)) : Prop :=
  match azureNames, s3Names with
  | Some azureNames, Some s3Names =>
      exists names, settles run = Resolved names
                    /\ forall name, In name azureNames \/ In name s3Names -> In name names
  | Some azureNames, None => settles run = Resolved azureNames
  | None, Some s3Names => settles run = Resolved s3Names
  | None, None => True
  end.

(** A client whose Azure default container is empty and whose S3 default
    bucket is configured. *)
Definition bucketOnlyClient : MultiStorageClient.t :=
  MultiStorageClient.initialize MultiStorageClient.new
    "account" "accessKey" "accessKeyId" "secretAccessKey" "eu-west-2"
    (Some "") (Some "bucket").

(** [storageToUse = storageToUse || (AzureBlobStorage | AwsS3)] *)
Definition targeted (storageToUse : option Z) : Z :=
  match storageToUse with
  | Some s => if s =? 0 then Z.lor StorageType.AzureBlobStorage StorageType.AwsS3 else s
  | None => Z.lor StorageType.AzureBlobStorage StorageType.AwsS3
  end.


(** The client of the test suite: one scope name for both backends. *)
Definition testClient : MultiStorageClient.t :=
  MultiStorageClient.initialize MultiStorageClient.new
    "account" "accessKey" "accessKeyId" "secretAccessKey" "eu-west-2"
    (Some "container") (Some "container").

(** The Location Set two presence answers add up to. *)
Definition locationSet (inAzure inS3 : bool) : Z :=
  match inAzure, inS3 with
  | false, false => StorageType.Undefined
  | true, false => StorageType.AzureBlobStorage
  | false, true => StorageType.AwsS3
  | true, true => StorageType.Both
  end.

(** What each adapter makes of its probe. *)
Definition azureReportsPresent (sdk : Sdk) (container : JsStr) (blob : string) : bool :=
  negb (azureProbeError sdk container blob) && azureProbeSuccessful sdk container blob.

Definition s3ReportsPresent (sdk : Sdk) (bucket : JsStr) (key : string) : bool :=
  negb (s3ProbeNotFound sdk bucket key).

(** What a [try] block that assigns [result] and whose [catch] stores the
    error in [result] leaves in [result]. *)
Definition caught (p : Settled JsVal) : JsVal :=
  match p with
  | Resolved v => v
  | Rejected error => error
  end.

(** How the promise around a callback settles: the Azure adapter tests the
    result ([if (result) resolve(result) else reject(error)]), the S3
    adapter tests the error ([if (error) reject(error) else resolve(data)]). *)
Definition settledByResult (answer : JsVal * JsVal) : Settled JsVal :=
  if truthy (snd answer) then Resolved (snd answer) else Rejected (fst answer).

Definition settledByError (answer : JsVal * JsVal) : Settled JsVal :=
  if truthy (fst answer) then Rejected (fst answer) else Resolved (snd answer).

Definition isResolved {A : Type} (p : Settled A) : bool :=
  match p with
  | Resolved _ => true
  | Rejected _ => false
  end.

(** The Azure probe reports the object absent: an error, or a status that
    is not successful. *)
Definition azureReportsAbsent (sdk : Sdk) (container : JsStr) (blob : string) : bool :=
  azureProbeError sdk container blob || negb (azureProbeSuccessful sdk container blob).

(** The content type [AwsS3Client.uploadFile] sends. *)
Definition sentContentType (sdk : Sdk) (localPath : string) (contentType : JsStr) : string :=
  match contentType with
  | None => mimeLookup sdk localPath AwsS3Client.DEFAULT_CONTENT_TYPE
  | Some contentType => contentType
  end.

(** What is left in [result] by a [try] block that awaits a call without
    assigning its value. *)
Definition errorOrNull (p : Settled JsVal) : JsVal :=
  match p with
  | Resolved _ => VNull
  | Rejected error => error
  end.

(** Events of a replication push: the store into Azure, and the read stream
    and store of the S3 adapter's [uploadFile]. *)
Definition isReplicationPush (e : Event) : bool :=
  match e with
  | EvCreateBlockBlobFromLocalFile _ _ _ | EvCreateReadStream _ | EvUpload _ _ _ _ => true
  | _ => false
  end.

(** Events that address a storage service or the local disk, as opposed to
    the console. *)
Definition isConsole (e : Event) : bool :=
  match e with
  | EvConsoleError _ => true
  | _ => false
  end.

(** The clients a program can hold: a constructed one, initialised any
    number of times. *)
Inductive constructed : MultiStorageClient.t -> Prop :=
| constructed_new : constructed MultiStorageClient.new
| constructed_initialize (this : MultiStorageClient.t)
    (accountName accessKey accessKeyId secretAccessKey region : string)
    (defaultContainer defaultBucket : JsStr) :
    constructed this ->
    constructed (MultiStorageClient.initialize this accountName accessKey
                   accessKeyId secretAccessKey region defaultContainer defaultBucket).

(** An adapter whose SDK client is missing. *)
Definition noService {A : Type} (r : JsRef A) : bool :=
  match r with
  | RefObj _ => false
  | RefNull | RefUndefined => true
  end.

(** Events that only ask a service, or write to the console: they change
    neither a backend nor the local disk. *)
Definition isQuery (e : Event) : bool :=
  match e with
  | EvGetBlobProperties _ _ | EvHeadObject _ _
  | EvListBlobsSegmentedWithPrefix _ _ | EvListObjectsV2 _ _
  | EvGetObject _ _ | EvConsoleError _ => true
  | _ => false
  end.

(** The four values of [StorageType]. *)
Definition storageTypes : list Z :=
  [StorageType.Undefined; StorageType.AzureBlobStorage; StorageType.AwsS3;
   StorageType.Both].

(** * Properties *)

(** ** Generic facts about runs *)

Lemma bind_ret_l {A B : Type} (a : A) (f : A -> M B) : bind (ret a) f = f a.
Proof. unfold bind, ret. destruct (f a) as [t r]. reflexivity. Qed.

Lemma bind_resolved {A B : Type} (t : list Event) (a : A) (f : A -> M B) :
  bind (t, Resolved a) f = (t ++ trace (f a), settles (f a)).
Proof. unfold bind, trace, settles. destruct (f a) as [t' r]. reflexivity. Qed.

Lemma bind_rejected {A B : Type} (t : list Event) (v : JsVal) (f : A -> M B) :
  bind (t, Rejected v) f = (t, Rejected v).
Proof. reflexivity. Qed.

Lemma tryCatch_resolved {A : Type} (t : list Event) (a : A) (handler : JsVal -> M A) :
  tryCatch (t, Resolved a) handler = (t, Resolved a).
Proof. reflexivity. Qed.

Lemma tryCatch_rejected {A : Type} (t : list Event) (v : JsVal) (handler : JsVal -> M A) :
  tryCatch (t, Rejected v) handler = (t ++ trace (handler v), settles (handler v)).
Proof. unfold tryCatch, trace, settles. destruct (handler v). reflexivity. Qed.

Lemma emit_then_ret {A : Type} (e : Event) (a : A) :
  bind (emit e) (fun _ => ret a) = ([e], Resolved a).
Proof. reflexivity. Qed.

Lemma run_eta {A : Type} (m : M A) : m = (trace m, settles m).
Proof. destruct m; reflexivity. Qed.

(** ** Scope resolution *)

Lemma jsOr_truthy (a b : JsStr) : truthyStr a = true -> jsOr a b = a.
Proof. unfold jsOr. intros ->. reflexivity. Qed.

Lemma jsOr_falsy (a b : JsStr) : truthyStr a = false -> jsOr a b = b.
Proof. unfold jsOr. intros ->. reflexivity. Qed.

(** Case analysis on the truthiness of the names involved. *)
Ltac by_truthiness :=
  unfold effectiveContainer, effectiveBucket, jsOr;
  repeat match goal with
         | |- context [truthyStr ?x] =>
             is_var x; let H := fresh "H" x in
             destruct (truthyStr x) eqn:H; cbn iota
         end;
  try reflexivity; try congruence.

Lemma container_resolution (c dc : JsStr) :
  jsOr (jsOr c dc) dc = effectiveContainer c dc.
Proof. by_truthiness. Qed.

Lemma bucket_resolution (c b dc db : JsStr) :
  jsOr (jsOr (jsOr b db) (jsOr c dc)) db = effectiveBucket c b dc db.
Proof. by_truthiness. Qed.

(** Resolving a second time changes nothing: the methods that resolve the
    names and then call [storagesContainingFile] address the same scopes. *)
Lemma container_resolution_idem (c dc : JsStr) :
  effectiveContainer (jsOr c dc) dc = effectiveContainer c dc.
Proof. by_truthiness. Qed.

Lemma bucket_resolution_idem (c b dc db : JsStr) :
  effectiveBucket (jsOr c dc) (jsOr (jsOr b db) (jsOr c dc)) dc db
  = effectiveBucket c b dc db.
Proof. by_truthiness. Qed.

Section Initialized.

Variable sdk : Sdk.
Variables accountName accessKey accessKeyId secretAccessKey region : string.
Variables defaultContainer defaultBucket : JsStr.

Local Abbreviation this :=
  (MultiStorageClient.initialize MultiStorageClient.new
     accountName accessKey accessKeyId secretAccessKey region
     defaultContainer defaultBucket).
Local Abbreviation azure :=
  (AzureBlobStorageClient.initialize AzureBlobStorageClient.new
     accountName accessKey defaultContainer).
Local Abbreviation aws :=
  (AwsS3Client.initialize AwsS3Client.new
     accessKeyId secretAccessKey region defaultBucket None).

Lemma resolveContainerName_run (c : JsStr) :
  MultiStorageClient.resolveContainerName this c = ret (jsOr c defaultContainer).
Proof.
  unfold MultiStorageClient.resolveContainerName, jsOr.
  destruct (truthyStr c); reflexivity.
Qed.

Lemma resolveBucketName_run (b c : JsStr) :
  MultiStorageClient.resolveBucketName this b c = ret (jsOr (jsOr b defaultBucket) c).
Proof.
  unfold MultiStorageClient.resolveBucketName, jsOr.
  destruct (truthyStr b) eqn:Hb; cbn; rewrite ?Hb; reflexivity.
Qed.

Lemma azure_fileExists_run (path : string) (c : JsStr) :
  AzureBlobStorageClient.fileExists sdk azure path c
  = ([EvGetBlobProperties (jsOr c defaultContainer) path],
     Resolved (azureReportsPresent sdk (jsOr c defaultContainer) path)).
Proof.
  unfold AzureBlobStorageClient.fileExists, azureReportsPresent,
    azureProbeError, azureProbeSuccessful. cbn.
  destruct (getBlobProperties sdk (jsOr c defaultContainer) path) as [error ok]. cbn.
  destruct (truthy error), ok; reflexivity.
Qed.

Lemma aws_fileExists_run (path : string) (b : JsStr) :
  AwsS3Client.fileExists sdk aws path b
  = ([EvHeadObject (jsOr b defaultBucket) path],
     Resolved (s3ReportsPresent sdk (jsOr b defaultBucket) path)).
Proof.
  unfold AwsS3Client.fileExists, s3ReportsPresent, s3ProbeNotFound. cbn.
  destruct (truthy (headObject sdk (jsOr b defaultBucket) path)
            && strictEqStr (codeOf (headObject sdk (jsOr b defaultBucket) path))
                 ERROR_CODE_NOT_FOUND); reflexivity.
Qed.

(** One run of [storagesContainingFile]: two probes, at the effective
    scopes, and the Location Set their answers add up to. *)
Lemma storagesContainingFile_run (path : string) (c b : JsStr) :
  MultiStorageClient.storagesContainingFile sdk this path c b
  = ([EvGetBlobProperties (effectiveContainer c defaultContainer) path;
      EvHeadObject (effectiveBucket c b defaultContainer defaultBucket) path],
     Resolved
       (locationSet
          (azureReportsPresent sdk (effectiveContainer c defaultContainer) path)
          (s3ReportsPresent sdk
             (effectiveBucket c b defaultContainer defaultBucket) path))).
Proof.
  unfold MultiStorageClient.storagesContainingFile.
  rewrite resolveContainerName_run, bind_ret_l.
  rewrite resolveBucketName_run, bind_ret_l.
  cbn [MultiStorageClient.initialize MultiStorageClient.azureBlobStorageClient
       MultiStorageClient.awsS3Client member].
  rewrite bind_ret_l, azure_fileExists_run, bind_resolved.
  rewrite bind_ret_l, aws_fileExists_run, bind_resolved.
  rewrite container_resolution, bucket_resolution.
  cbn [trace settles fst snd ret app].
  destruct (azureReportsPresent _ _ _), (s3ReportsPresent _ _ _); reflexivity.
Qed.


Local Abbreviation effC c := (effectiveContainer c defaultContainer).
Local Abbreviation effB c b := (effectiveBucket c b defaultContainer defaultBucket).
Local Abbreviation probes path c b :=
  [EvGetBlobProperties (effC c) path; EvHeadObject (effB c b) path].
Local Abbreviation located path c b :=
  (locationSet (azureReportsPresent sdk (effC c) path)
               (s3ReportsPresent sdk (effB c b) path)).

(** The three lines the download methods start with: the names are
    resolved, then [storagesContainingFile] is called with them. *)
Lemma locate_prefix {A : Type} (path : string) (c b : JsStr)
    (k : JsStr -> JsStr -> Z -> M A) :
  (containerName <- MultiStorageClient.resolveContainerName this c ;;
   bucketName <- MultiStorageClient.resolveBucketName this b containerName ;;
   storages <- MultiStorageClient.storagesContainingFile sdk this path
                 containerName bucketName ;;
   k containerName bucketName storages)
  = (probes path c b
       ++ trace (k (jsOr c defaultContainer)
                   (jsOr (jsOr b defaultBucket) (jsOr c defaultContainer))
                   (located path c b)),
     settles (k (jsOr c defaultContainer)
                (jsOr (jsOr b defaultBucket) (jsOr c defaultContainer))
                (located path c b))).
Proof.
  rewrite resolveContainerName_run, bind_ret_l.
  rewrite resolveBucketName_run, bind_ret_l.
  rewrite storagesContainingFile_run, bind_resolved.
  rewrite container_resolution_idem, bucket_resolution_idem.
  reflexivity.
Qed.

Lemma located_spec (path : string) (c b : JsStr) (storages : Z) :
  settles (MultiStorageClient.storagesContainingFile sdk this path c b) = Resolved storages ->
  storages = located path c b.
Proof. rewrite storagesContainingFile_run. cbn. congruence. Qed.

Lemma aws_downloadFile_run (path : string) (b : JsStr) :
  AwsS3Client.downloadFile sdk aws path b
  = ([EvGetObject (jsOr b defaultBucket) path],
     getObject sdk (jsOr b defaultBucket) path).
Proof.
  unfold AwsS3Client.downloadFile. cbn.
  destruct (getObject sdk (jsOr b defaultBucket) path); reflexivity.
Qed.

(** The adapter fields of an initialised client are objects. *)
Ltac deref :=
  cbn [MultiStorageClient.initialize MultiStorageClient.awsS3Client
       MultiStorageClient.azureBlobStorageClient member];
  rewrite ?bind_ret_l.

Lemma azure_downloadFileToDisk_run (path localPath : string) (c : JsStr) :
  AzureBlobStorageClient.downloadFileToDisk sdk azure path localPath c
  = ([EvGetBlobToLocalFile (jsOr c defaultContainer) path localPath],
     settledByResult (getBlobToLocalFile sdk (jsOr c defaultContainer) path localPath)).
Proof.
  unfold AzureBlobStorageClient.downloadFileToDisk, settledByResult. cbn.
  destruct (getBlobToLocalFile sdk (jsOr c defaultContainer) path localPath)
    as [error result]. cbn.
  destruct (truthy result); reflexivity.
Qed.

Lemma azure_uploadFile_run (localPath path : string) (c : JsStr) :
  AzureBlobStorageClient.uploadFile sdk azure localPath path c
  = ([EvCreateBlockBlobFromLocalFile (jsOr c defaultContainer) path localPath],
     settledByResult
       (createBlockBlobFromLocalFile sdk (jsOr c defaultContainer) path localPath)).
Proof.
  unfold AzureBlobStorageClient.uploadFile, settledByResult. cbn.
  destruct (createBlockBlobFromLocalFile sdk (jsOr c defaultContainer) path localPath)
    as [error result]. cbn.
  destruct (truthy result); reflexivity.
Qed.

Lemma aws_uploadFile_run (localPath path : string) (b contentType : JsStr) :
  AwsS3Client.uploadFile sdk aws localPath path b contentType
  = ([EvCreateReadStream localPath;
      EvUpload (jsOr b defaultBucket) path localPath (sentContentType sdk localPath contentType)],
     settledByError
       (upload sdk (jsOr b defaultBucket) path localPath
          (sentContentType sdk localPath contentType))).
Proof.
  unfold AwsS3Client.uploadFile, settledByError, sentContentType. cbn.
  destruct (upload sdk (jsOr b defaultBucket) path localPath _) as [error sendData]. cbn.
  destruct (truthy error); reflexivity.
Qed.

Lemma aws_downloadFileToDisk_run (path localPath : string) (b : JsStr) :
  AwsS3Client.downloadFileToDisk sdk aws path localPath b
  = (match getObjectReadStream sdk (jsOr b defaultBucket) path with
     | Some error =>
         ([EvCreateWriteStream localPath; EvGetObjectReadStream (jsOr b defaultBucket) path;
           EvUnlink localPath],
          Rejected error)
     | None =>
         ([EvCreateWriteStream localPath; EvGetObjectReadStream (jsOr b defaultBucket) path],
          Resolved VUndefined)
     end).
Proof.
  unfold AwsS3Client.downloadFileToDisk. cbn.
  destruct (getObjectReadStream sdk (jsOr b defaultBucket) path); reflexivity.
Qed.

(** ** Presence *)

(** C1 (as amended). On an initialised client [storagesContainingFile]
    never fails because of what a probe reports: it always returns a
    Location Set.  An error of the Azure probe, of whatever kind, leaves
    Azure out of the set, and the not-found error of the S3 probe leaves S3
    out of it. *)
Theorem locate_resolves_whatever_the_probes_report (path : string) (c b : JsStr) :
  exists storages,
    settles (MultiStorageClient.storagesContainingFile sdk this path c b)
    = Resolved storages
    /\ (azureProbeError sdk (effectiveContainer c defaultContainer) path = true ->
        hasFlag storages StorageType.AzureBlobStorage = false)
    /\ (s3ProbeNotFound sdk (effectiveBucket c b defaultContainer defaultBucket) path = true ->
        hasFlag storages StorageType.AwsS3 = false).
Proof.
  rewrite storagesContainingFile_run. eexists. split; [reflexivity|].
  unfold azureReportsPresent, s3ReportsPresent. split; intros ->; cbn.
  - destruct (negb _); reflexivity.
  - destruct (_ && _); reflexivity.
Qed.


(** ** Reading *)

(** C2 (as amended). [downloadFile] resolves [storagesContainingFile]
    first.  When no backend is reported, its result is NotFound.  When
    Azure is reported, alone or together with S3, Azure is the backend
    consulted and S3 is not read; the Azure adapter's [downloadFile] is not
    implemented, so the result is its "Method not implemented" error.
    When S3 alone is reported, the object is read from S3 and the result
    is what S3 delivers: the payload, or the error S3 raised. *)
Theorem downloadFile_by_location (path : string) (c b : JsStr) (storages : Z)
    (Hlocate : settles (MultiStorageClient.storagesContainingFile sdk this path c b)
               = Resolved storages) :
  (storages = StorageType.Undefined ->
   MultiStorageClient.downloadFile sdk this path c b
   = (probes path c b, Resolved (VString ERROR_CODE_NOT_FOUND)))
  /\ (hasFlag storages StorageType.AzureBlobStorage = true ->
      MultiStorageClient.downloadFile sdk this path c b
      = (probes path c b, Resolved (newError "Method not implemented")))
  /\ (storages = StorageType.AwsS3 ->
      MultiStorageClient.downloadFile sdk this path c b
      = (probes path c b ++ [EvGetObject (effB c b) path],
         Resolved (caught (getObject sdk (effB c b) path)))).
Proof.
  apply located_spec in Hlocate. subst storages.
  unfold MultiStorageClient.downloadFile. rewrite locate_prefix.
  destruct (azureReportsPresent sdk (effC c) path),
           (s3ReportsPresent sdk (effB c b) path);
    (split; [|split]); intros H; try discriminate H; try reflexivity.
  cbn [locationSet Z.eqb StorageType.Undefined StorageType.AwsS3 hasFlag
       StorageType.AzureBlobStorage Z.land Pos.land negb
       MultiStorageClient.initialize MultiStorageClient.awsS3Client member].
  rewrite bind_ret_l, aws_downloadFile_run, bucket_resolution.
  destruct (getObject sdk (effB c b) path); reflexivity.
Qed.

(** C7. For a path neither backend holds (the Azure probe reports an error
    or an unsuccessful status, the S3 probe reports NotFound):
    [storagesContainingFile] returns [StorageType.Undefined], [fileExists]
    returns false, and [downloadFile], [downloadFileToDisk] and
    [downloadFileToDiskAndReplicateIfNecessary] end with NotFound as their
    result, having issued the two probes and nothing else, so that no call
    that creates the local destination file is made. *)
Theorem absent_everywhere (path localPath : string) (c b : JsStr)
    (Hazure : azureReportsAbsent sdk (effC c) path = true)
    (Hs3 : s3ProbeNotFound sdk (effB c b) path = true) :
  MultiStorageClient.storagesContainingFile sdk this path c b
  = (probes path c b, Resolved StorageType.Undefined)
  /\ MultiStorageClient.fileExists sdk this path c b
     = (probes path c b, Resolved false)
  /\ MultiStorageClient.downloadFile sdk this path c b
     = (probes path c b, Resolved (VString ERROR_CODE_NOT_FOUND))
  /\ MultiStorageClient.downloadFileToDisk sdk this path localPath c b
     = (probes path c b, Resolved (VString ERROR_CODE_NOT_FOUND))
  /\ MultiStorageClient.downloadFileToDiskAndReplicateIfNecessary sdk this path localPath c b
     = (probes path c b, Resolved (VString ERROR_CODE_NOT_FOUND))
  /\ existsb writesLocalFile
       (trace (MultiStorageClient.downloadFile sdk this path c b)
        ++ trace (MultiStorageClient.downloadFileToDisk sdk this path localPath c b)
        ++ trace (MultiStorageClient.downloadFileToDiskAndReplicateIfNecessary
                    sdk this path localPath c b))
     = false.
Proof.
  assert (Hloc : located path c b = StorageType.Undefined).
  { unfold azureReportsPresent, s3ReportsPresent.
    unfold azureReportsAbsent in Hazure. rewrite Hs3.
    destruct (azureProbeError sdk (effC c) path),
             (azureProbeSuccessful sdk (effC c) path);
      try discriminate Hazure; reflexivity. }
  assert (H1 : MultiStorageClient.storagesContainingFile sdk this path c b
               = (probes path c b, Resolved StorageType.Undefined)).
  { rewrite storagesContainingFile_run, Hloc. reflexivity. }
  assert (H2 : MultiStorageClient.downloadFile sdk this path c b
               = (probes path c b, Resolved (VString ERROR_CODE_NOT_FOUND))).
  { unfold MultiStorageClient.downloadFile. rewrite locate_prefix, Hloc. reflexivity. }
  assert (H3 : MultiStorageClient.downloadFileToDisk sdk this path localPath c b
               = (probes path c b, Resolved (VString ERROR_CODE_NOT_FOUND))).
  { unfold MultiStorageClient.downloadFileToDisk. rewrite locate_prefix, Hloc. reflexivity. }
  assert (H4 : MultiStorageClient.downloadFileToDiskAndReplicateIfNecessary
                 sdk this path localPath c b
               = (probes path c b, Resolved (VString ERROR_CODE_NOT_FOUND))).
  { unfold MultiStorageClient.downloadFileToDiskAndReplicateIfNecessary.
    rewrite locate_prefix, Hloc. reflexivity. }
  repeat split; try assumption.
  - unfold MultiStorageClient.fileExists. rewrite H1. reflexivity.
  - rewrite H2, H3, H4. reflexivity.
Qed.

(** ** Replicating read *)

(** C4. When the object is located in Azure only, the call fetches it from
    Azure to the local destination and, the fetch done, stores that local
    file in S3 under the same storage path; when it is located in S3 only,
    it fetches from S3 and then stores the local file in Azure under the
    same path; when it is located in both, it fetches from Azure and stores
    nothing. *)
Theorem replication_by_location (path localPath : string) (c b : JsStr) (storages : Z)
    (Hlocate : settles (MultiStorageClient.storagesContainingFile sdk this path c b)
               = Resolved storages) :
  let run := MultiStorageClient.downloadFileToDiskAndReplicateIfNecessary
               sdk this path localPath c b in
  (storages = StorageType.AzureBlobStorage ->
   trace run
   = probes path c b
       ++ EvGetBlobToLocalFile (effC c) path localPath
       :: (if isResolved (settledByResult (getBlobToLocalFile sdk (effC c) path localPath))
           then [EvCreateReadStream localPath;
                 EvUpload (effB c b) path localPath (sentContentType sdk localPath None)]
           else []))
  /\ (storages = StorageType.AwsS3 ->
      trace run
      = probes path c b
          ++ EvCreateWriteStream localPath
          :: EvGetObjectReadStream (effB c b) path
          :: (match getObjectReadStream sdk (effB c b) path with
              | None => [EvCreateBlockBlobFromLocalFile (effC c) path localPath]
              | Some _ => [EvUnlink localPath]
              end))
  /\ (storages = StorageType.Both ->
      trace run = probes path c b ++ [EvGetBlobToLocalFile (effC c) path localPath]
      /\ existsb isUpload (trace run) = false).
Proof.
  apply located_spec in Hlocate. subst storages. cbv zeta.
  unfold MultiStorageClient.downloadFileToDiskAndReplicateIfNecessary.
  rewrite locate_prefix. cbn [trace fst].
  destruct (azureReportsPresent sdk (effC c) path),
           (s3ReportsPresent sdk (effB c b) path);
    (split; [|split]); intros H; try discriminate H;
    cbn [locationSet Z.eqb StorageType.Undefined StorageType.AwsS3 StorageType.Both
         StorageType.AzureBlobStorage Z.lor Pos.lor Pos.eqb
         MultiStorageClient.initialize MultiStorageClient.awsS3Client
         MultiStorageClient.azureBlobStorageClient member];
    rewrite ?bind_ret_l.
  - (* both *)
    rewrite azure_downloadFileToDisk_run, container_resolution.
    unfold settledByResult.
    destruct (truthy (snd (getBlobToLocalFile sdk (effC c) path localPath)));
      split; reflexivity.
  - (* Azure only *)
    rewrite azure_downloadFileToDisk_run, container_resolution.
    unfold settledByResult.
    destruct (truthy (snd (getBlobToLocalFile sdk (effC c) path localPath)));
      cbn [isResolved]; [|reflexivity].
    rewrite bind_resolved. deref.
    rewrite aws_uploadFile_run, bucket_resolution.
    unfold settledByError.
    destruct (truthy (fst (upload sdk (effB c b) path localPath
                             (sentContentType sdk localPath None)))); reflexivity.
  - (* S3 only *)
    rewrite aws_downloadFileToDisk_run, bucket_resolution.
    destruct (getObjectReadStream sdk (effB c b) path); [reflexivity|].
    rewrite bind_resolved. deref.
    rewrite azure_uploadFile_run, container_resolution.
    unfold settledByResult.
    destruct (truthy (snd (createBlockBlobFromLocalFile sdk (effC c) path localPath)));
      reflexivity.
Qed.

(** ** Scopes *)

(** C8 (as amended). An omitted container name is replaced by the Azure
    adapter's default and by nothing else.  An omitted bucket name is
    replaced by the S3 adapter's default and, that being empty, by the
    container name in effect for the call: the container argument when
    given, otherwise the Azure default.  The probes of
    [storagesContainingFile] address exactly these scopes. *)
Theorem scope_resolution (path : string) (c b : JsStr) :
  MultiStorageClient.resolveContainerName this c
  = ret (if truthyStr c then c else defaultContainer)
  /\ (forall containerName,
        MultiStorageClient.resolveBucketName this b containerName
        = ret (if truthyStr b then b
               else if truthyStr defaultBucket then defaultBucket
               else containerName))
  /\ exists container bucket,
       trace (MultiStorageClient.storagesContainingFile sdk this path c b)
       = [EvGetBlobProperties container path; EvHeadObject bucket path]
       /\ container = (if truthyStr c then c else defaultContainer)
       /\ bucket = (if truthyStr b then b
                    else if truthyStr defaultBucket then defaultBucket
                    else if truthyStr c then c
                    else if truthyStr defaultContainer then defaultContainer
                    else defaultBucket).
Proof.
  split; [apply resolveContainerName_run|].
  split.
  - intros containerName. rewrite resolveBucketName_run. by_truthiness.
  - rewrite storagesContainingFile_run. eexists _, _.
    split; [reflexivity|]. split; reflexivity.
Qed.

(** ** Writing *)

Lemma hasFlag_locationSet (inAzure inS3 : bool) :
  hasFlag (locationSet inAzure inS3) StorageType.AzureBlobStorage = inAzure
  /\ hasFlag (locationSet inAzure inS3) StorageType.AwsS3 = inS3.
Proof. destruct inAzure, inS3; split; reflexivity. Qed.

(** C5. [uploadFileToStorage] never fails because a store failed: it
    returns a Location Set, which holds a backend exactly when that backend
    was targeted and its store succeeded.  In particular a write targeted
    at both backends whose store into S3 fails, the store into Azure
    succeeding, returns [AzureBlobStorage] alone. *)
Theorem upload_reports_where_it_landed (localPath path : string) (storageToUse : option Z)
    (c b contentType : JsStr) :
  let azureStored :=
    isResolved (settledByResult
                  (createBlockBlobFromLocalFile sdk (effC c) path localPath)) in
  let s3Stored :=
    isResolved (settledByError
                  (upload sdk (effB c b) path localPath
                     (sentContentType sdk localPath contentType))) in
  exists storages,
    settles (MultiStorageClient.uploadFileToStorage sdk this localPath path
               storageToUse c b contentType) = Resolved storages
    /\ storages = locationSet
                    (hasFlag (targeted storageToUse) StorageType.AzureBlobStorage
                     && azureStored)
                    (hasFlag (targeted storageToUse) StorageType.AwsS3 && s3Stored)
    /\ hasFlag storages StorageType.AzureBlobStorage
       = hasFlag (targeted storageToUse) StorageType.AzureBlobStorage && azureStored
    /\ hasFlag storages StorageType.AwsS3
       = hasFlag (targeted storageToUse) StorageType.AwsS3 && s3Stored
    /\ (targeted storageToUse = StorageType.Both ->
        azureStored = true -> s3Stored = false ->
        storages = StorageType.AzureBlobStorage).
Proof.
  cbv zeta. eexists. split; [|split; [reflexivity|]].
  - unfold MultiStorageClient.uploadFileToStorage.
    change (match storageToUse with
            | Some s => if s =? 0
                        then Z.lor StorageType.AzureBlobStorage StorageType.AwsS3 else s
            | None => Z.lor StorageType.AzureBlobStorage StorageType.AwsS3
            end) with (targeted storageToUse).
    rewrite resolveContainerName_run, bind_ret_l.
    rewrite resolveBucketName_run, bind_ret_l.
    destruct (hasFlag (targeted storageToUse) StorageType.AzureBlobStorage),
             (hasFlag (targeted storageToUse) StorageType.AwsS3);
      deref;
      rewrite ?azure_uploadFile_run, ?aws_uploadFile_run,
              ?container_resolution, ?bucket_resolution;
      unfold settledByResult, settledByError;
      destruct (truthy (snd (createBlockBlobFromLocalFile sdk (effC c) path localPath)));
      destruct (truthy (fst (upload sdk (effB c b) path localPath
                               (sentContentType sdk localPath contentType))));
      reflexivity.
  - destruct (hasFlag_locationSet
                (hasFlag (targeted storageToUse) StorageType.AzureBlobStorage
                 && isResolved (settledByResult
                      (createBlockBlobFromLocalFile sdk (effC c) path localPath)))
                (hasFlag (targeted storageToUse) StorageType.AwsS3
                 && isResolved (settledByError
                      (upload sdk (effB c b) path localPath
                         (sentContentType sdk localPath contentType)))))
      as [HA HS].
    split; [exact HA|]. split; [exact HS|].
    intros -> -> ->. reflexivity.
Qed.

(** ** Listing *)

Lemma azure_listFileNamesWithPrefix_run (prefix c : JsStr) :
  AzureBlobStorageClient.listFileNamesWithPrefix sdk azure prefix c
  = ([EvListBlobsSegmentedWithPrefix (effC c) prefix],
     match snd (listBlobsSegmentedWithPrefix sdk (effC c) prefix) with
     | Some entries => Resolved entries
     | None => Rejected (fst (listBlobsSegmentedWithPrefix sdk (effC c) prefix))
     end).
Proof.
  unfold AzureBlobStorageClient.listFileNamesWithPrefix,
    AzureBlobStorageClient.listFilesWithPrefix.
  cbn [AzureBlobStorageClient.initialize AzureBlobStorageClient.azureBlobService
       AzureBlobStorageClient.defaultContainerName member].
  rewrite container_resolution, bind_ret_l.
  destruct (listBlobsSegmentedWithPrefix sdk (effC c) prefix) as [error [entries|]];
    reflexivity.
Qed.

Lemma aws_listFileNamesWithPrefix_run (prefix b : JsStr) :
  AwsS3Client.listFileNamesWithPrefix sdk aws prefix b
  = ([EvListObjectsV2 (jsOr b defaultBucket) (if truthyStr prefix then prefix else None)],
     listObjectsV2 sdk (jsOr b defaultBucket) (if truthyStr prefix then prefix else None)).
Proof.
  unfold AwsS3Client.listFileNamesWithPrefix, AwsS3Client.listFilesWithPrefix. cbn.
  destruct (listObjectsV2 sdk (jsOr b defaultBucket) _); reflexivity.
Qed.

(** C3 (as amended). [listFileNamesWithPrefix] queries Azure, then S3.  A
    failure of the S3 listing is not caught: the call fails with it.  When
    the S3 listing succeeds the call succeeds; every name Azure returned
    is in the result, and when the Azure listing failed the failure is
    caught and logged and Azure contributes no name. *)
Theorem listing_by_outcome (prefix c b : JsStr) :
  let azureListing := listBlobsSegmentedWithPrefix sdk (effC c) prefix in
  let s3Listing :=
    listObjectsV2 sdk (effB c b) (if truthyStr prefix then prefix else None) in
  let run := MultiStorageClient.listFileNamesWithPrefix sdk this prefix c b in
  (forall reason, s3Listing = Rejected reason -> settles run = Rejected reason)
  /\ (forall s3Names, s3Listing = Resolved s3Names ->
      exists names,
        settles run = Resolved names
        /\ (forall azureNames, snd azureListing = Some azureNames ->
            forall name, In name azureNames -> In name names)
        /\ (snd azureListing = None ->
            (forall name, In name names -> In name s3Names)
            /\ In (EvConsoleError
                     ("Failed to list file names: " ++ toString (fst azureListing))%string)
                  (trace run))).
Proof.
  cbv zeta. unfold MultiStorageClient.listFileNamesWithPrefix.
  rewrite resolveContainerName_run, bind_ret_l.
  rewrite resolveBucketName_run, bind_ret_l.
  deref.
  rewrite azure_listFileNamesWithPrefix_run, container_resolution_idem.
  destruct (listBlobsSegmentedWithPrefix sdk (effC c) prefix) as [error [entries|]];
    cbn [snd fst];
    rewrite ?tryCatch_resolved, ?tryCatch_rejected, ?emit_then_ret;
    cbn [trace settles fst snd];
    rewrite bind_resolved; deref;
    rewrite aws_listFileNamesWithPrefix_run, bucket_resolution;
    destruct (listObjectsV2 sdk (effB c b) _) as [s3Names|reason'];
    (split; [intros reason H|intros names' H]); try discriminate H;
    cbn [settles trace bind snd fst ret app].
  - exists entries. split; [reflexivity|]. split.
    + intros azureNames Hsome. injection Hsome as <-. auto.
    + discriminate.
  - exact H.
  - exists []. split; [reflexivity|]. split.
    + discriminate.
    + intros _. split; [intros name []|]. cbn. right. left. reflexivity.
  - exact H.
Qed.

(** ** Deleting *)

Lemma azure_deleteBlobs_resolves (blobNames : list string) (c : JsStr) :
  AzureBlobStorageClient.deleteBlobs sdk azure blobNames c
  = (map (EvDeleteBlob c) blobNames, Resolved tt).
Proof.
  induction blobNames as [|blobName rest IH]; [reflexivity|].
  cbn [AzureBlobStorageClient.deleteBlobs AzureBlobStorageClient.initialize
       AzureBlobStorageClient.azureBlobService member map].
  rewrite bind_ret_l. cbn [emit bind]. rewrite IH. reflexivity.
Qed.

(** Whatever [deleteBlob] reports, the promise of the Azure adapter's
    [deleteFiles] is fulfilled. *)
Lemma azure_deleteFiles_resolves (blobNames : list string) (c : JsStr) :
  AzureBlobStorageClient.deleteFiles sdk azure blobNames c
  = (map (EvDeleteBlob (jsOr c defaultContainer)) blobNames, Resolved (VObject "Array")).
Proof.
  unfold AzureBlobStorageClient.deleteFiles.
  cbn [AzureBlobStorageClient.initialize AzureBlobStorageClient.defaultContainerName].
  rewrite azure_deleteBlobs_resolves. cbn. rewrite app_nil_r. reflexivity.
Qed.

Lemma aws_deleteFiles_run (fileKeys : list string) (b : JsStr) :
  AwsS3Client.deleteFiles sdk aws fileKeys b
  = ([EvDeleteObjects (jsOr b defaultBucket) fileKeys],
     deleteObjects sdk (jsOr b defaultBucket) fileKeys).
Proof.
  unfold AwsS3Client.deleteFiles. cbn.
  destruct (deleteObjects sdk (jsOr b defaultBucket) fileKeys); reflexivity.
Qed.

(** One run of [deleteFiles]: both deletions are issued, and the result is
    the rejection of the S3 deletion, or null; what [deleteBlob] reported
    for Azure has no part in it. *)
Lemma deleteFiles_run (filePaths : list string) (c b : JsStr) :
  MultiStorageClient.deleteFiles sdk this filePaths c b
  = (map (EvDeleteBlob (effC c)) filePaths ++ [EvDeleteObjects (effB c b) filePaths],
     Resolved (match deleteObjects sdk (effB c b) filePaths with
               | Resolved _ => VNull
               | Rejected error => error
               end)).
Proof.
  unfold MultiStorageClient.deleteFiles.
  rewrite resolveContainerName_run, bind_ret_l.
  rewrite resolveBucketName_run, bind_ret_l.
  deref.
  rewrite azure_deleteFiles_resolves, container_resolution.
  unfold start at 1. cbn [fst snd]. rewrite bind_resolved. deref.
  rewrite aws_deleteFiles_run, bucket_resolution.
  unfold start. cbn [fst snd]. rewrite bind_resolved.
  destruct (deleteObjects sdk (effB c b) filePaths); cbn; rewrite ?app_nil_r; reflexivity.
Qed.

(** * Further properties of the code *)

(** ** Reading to disk *)

(** [downloadFileToDisk] by what [storagesContainingFile] reports.  Azure
    reported, alone or with S3: one fetch from Azure, whose error, if any,
    is the result.  S3 alone: the object is streamed from S3 to the local
    path, and when the stream fails the local file is unlinked and the
    error is the result.  In no case is anything stored in a backend. *)
Theorem downloadFileToDisk_by_location (path localPath : string) (c b : JsStr)
    (storages : Z)
    (Hlocate : settles (MultiStorageClient.storagesContainingFile sdk this path c b)
               = Resolved storages) :
  let run := MultiStorageClient.downloadFileToDisk sdk this path localPath c b in
  (storages = StorageType.Undefined ->
   run = (probes path c b, Resolved (VString ERROR_CODE_NOT_FOUND)))
  /\ (hasFlag storages StorageType.AzureBlobStorage = true ->
      run = (probes path c b ++ [EvGetBlobToLocalFile (effC c) path localPath],
             Resolved (errorOrNull
                         (settledByResult
                            (getBlobToLocalFile sdk (effC c) path localPath)))))
  /\ (storages = StorageType.AwsS3 ->
      run = match getObjectReadStream sdk (effB c b) path with
            | None =>
                (probes path c b
                   ++ [EvCreateWriteStream localPath;
                       EvGetObjectReadStream (effB c b) path],
                 Resolved VNull)
            | Some error =>
                (probes path c b
                   ++ [EvCreateWriteStream localPath;
                       EvGetObjectReadStream (effB c b) path;
                       EvUnlink localPath],
                 Resolved error)
            end)
  /\ existsb isUpload (trace run) = false.
Proof.
  apply located_spec in Hlocate. subst storages. cbv zeta.
  unfold MultiStorageClient.downloadFileToDisk. rewrite locate_prefix.
  destruct (azureReportsPresent sdk (effC c) path),
           (s3ReportsPresent sdk (effB c b) path);
    cbn [locationSet Z.eqb StorageType.Undefined StorageType.AwsS3 StorageType.Both
         StorageType.AzureBlobStorage hasFlag Z.land Pos.land negb];
    deref;
    rewrite ?azure_downloadFileToDisk_run, ?aws_downloadFileToDisk_run,
            ?container_resolution, ?bucket_resolution;
    unfold settledByResult;
    try destruct (truthy (snd (getBlobToLocalFile sdk (effC c) path localPath)));
    try destruct (getObjectReadStream sdk (effB c b) path);
    (split; [|split; [|split]]); try (intros H; try discriminate H); reflexivity.
Qed.

(** ** The result of a replicating read *)


(** A replicating read is the plain read to disk followed, at most, by a
    replication push: it issues the calls of [downloadFileToDisk] and then
    nothing but the store into the other backend.  When both backends or
    neither hold the object the two methods run alike. *)
Theorem replication_extends_plain_read (path localPath : string) (c b : JsStr)
    (storages : Z)
    (Hlocate : settles (MultiStorageClient.storagesContainingFile sdk this path c b)
               = Resolved storages) :
  let plain := MultiStorageClient.downloadFileToDisk sdk this path localPath c b in
  let replicating :=
    MultiStorageClient.downloadFileToDiskAndReplicateIfNecessary
      sdk this path localPath c b in
  (exists push,
     trace replicating = trace plain ++ push
     /\ forallb isReplicationPush push = true)
  /\ (storages = StorageType.Both \/ storages = StorageType.Undefined ->
      replicating = plain).
Proof.
  apply located_spec in Hlocate. subst storages. cbv zeta.
  unfold MultiStorageClient.downloadFileToDiskAndReplicateIfNecessary,
    MultiStorageClient.downloadFileToDisk.
  rewrite !locate_prefix. cbn [trace fst].
  destruct (azureReportsPresent sdk (effC c) path),
           (s3ReportsPresent sdk (effB c b) path);
    cbn [locationSet Z.eqb StorageType.Undefined StorageType.AwsS3 StorageType.Both
         StorageType.AzureBlobStorage Z.lor Pos.lor Pos.eqb
         hasFlag Z.land Pos.land negb];
    deref;
    rewrite ?azure_downloadFileToDisk_run, ?aws_downloadFileToDisk_run,
            ?container_resolution, ?bucket_resolution.
  - (* both *)
    split; [exists []|intros _];
      destruct (settledByResult (getBlobToLocalFile sdk (effC c) path localPath));
      cbn; rewrite ?app_nil_r; auto.
  - (* Azure only *)
    split; [|intros [H|H]; discriminate H].
    destruct (settledByResult (getBlobToLocalFile sdk (effC c) path localPath)).
    + rewrite !bind_resolved. deref.
      rewrite aws_uploadFile_run, bucket_resolution.
      exists [EvCreateReadStream localPath;
              EvUpload (effB c b) path localPath (sentContentType sdk localPath None)].
      split; [|reflexivity].
      destruct (settledByError _); cbn; rewrite <- ?app_assoc; reflexivity.
    + exists []. cbn. rewrite ?app_nil_r. auto.
  - (* S3 only *)
    split; [|intros [H|H]; discriminate H].
    destruct (getObjectReadStream sdk (effB c b) path).
    + exists []. cbn. auto.
    + rewrite !bind_resolved. deref.
      rewrite azure_uploadFile_run, container_resolution.
      exists [EvCreateBlockBlobFromLocalFile (effC c) path localPath].
      split; [|reflexivity].
      destruct (settledByResult _); cbn; reflexivity.
  - (* neither *)
    split; [exists []|intros _]; cbn; auto.
Qed.

(** ** The calls of a write *)

Lemma uploadFileToStorage_trace (localPath path : string) (storageToUse : option Z)
    (c b contentType : JsStr) :
  let toAzure := hasFlag (targeted storageToUse) StorageType.AzureBlobStorage in
  let toS3 := hasFlag (targeted storageToUse) StorageType.AwsS3 in
  let azureAnswer := createBlockBlobFromLocalFile sdk (effC c) path localPath in
  let s3Answer :=
    upload sdk (effB c b) path localPath (sentContentType sdk localPath contentType) in
  trace (MultiStorageClient.uploadFileToStorage sdk this localPath path
           storageToUse c b contentType)
  = (if toAzure then [EvCreateBlockBlobFromLocalFile (effC c) path localPath] else [])
    ++ (if toS3
        then [EvCreateReadStream localPath;
              EvUpload (effB c b) path localPath (sentContentType sdk localPath contentType)]
        else [])
    ++ (if toAzure && negb (isResolved (settledByResult azureAnswer))
        then [EvConsoleError ("Failed to upload file to Azure Blob Storage: "
                              ++ toString (fst azureAnswer))%string]
        else [])
    ++ (if toS3 && negb (isResolved (settledByError s3Answer))
        then [EvConsoleError ("Failed to upload file to AWS S3: "
                              ++ toString (fst s3Answer))%string]
        else []).
Proof.
  cbv zeta. unfold MultiStorageClient.uploadFileToStorage.
  change (match storageToUse with
          | Some s => if s =? 0
                      then Z.lor StorageType.AzureBlobStorage StorageType.AwsS3 else s
          | None => Z.lor StorageType.AzureBlobStorage StorageType.AwsS3
          end) with (targeted storageToUse).
  rewrite resolveContainerName_run, bind_ret_l.
  rewrite resolveBucketName_run, bind_ret_l.
  destruct (hasFlag (targeted storageToUse) StorageType.AzureBlobStorage),
           (hasFlag (targeted storageToUse) StorageType.AwsS3);
    deref;
    rewrite ?azure_uploadFile_run, ?aws_uploadFile_run,
            ?container_resolution, ?bucket_resolution;
    unfold settledByResult, settledByError;
    destruct (truthy (snd (createBlockBlobFromLocalFile sdk (effC c) path localPath)));
    destruct (truthy (fst (upload sdk (effB c b) path localPath
                             (sentContentType sdk localPath contentType))));
    reflexivity.
Qed.

(** [uploadFileToStorage] issues the store of every targeted backend before
    it awaits any of them, Azure first, and calls no backend that is not
    targeted; afterwards it logs each failed store once, under the name of
    its backend. *)
Theorem upload_calls (localPath path : string) (storageToUse : option Z)
    (c b contentType : JsStr) :
  let toAzure := hasFlag (targeted storageToUse) StorageType.AzureBlobStorage in
  let toS3 := hasFlag (targeted storageToUse) StorageType.AwsS3 in
  let azureAnswer := createBlockBlobFromLocalFile sdk (effC c) path localPath in
  let s3Answer :=
    upload sdk (effB c b) path localPath (sentContentType sdk localPath contentType) in
  trace (MultiStorageClient.uploadFileToStorage sdk this localPath path
           storageToUse c b contentType)
  = (if toAzure then [EvCreateBlockBlobFromLocalFile (effC c) path localPath] else [])
    ++ (if toS3
        then [EvCreateReadStream localPath;
              EvUpload (effB c b) path localPath (sentContentType sdk localPath contentType)]
        else [])
    ++ (if toAzure && negb (isResolved (settledByResult azureAnswer))
        then [EvConsoleError ("Failed to upload file to Azure Blob Storage: "
                              ++ toString (fst azureAnswer))%string]
        else [])
    ++ (if toS3 && negb (isResolved (settledByError s3Answer))
        then [EvConsoleError ("Failed to upload file to AWS S3: "
                              ++ toString (fst s3Answer))%string]
        else []).
Proof.
  cbv zeta. unfold MultiStorageClient.uploadFileToStorage.
  change (match storageToUse with
          | Some s => if s =? 0
                      then Z.lor StorageType.AzureBlobStorage StorageType.AwsS3 else s
          | None => Z.lor StorageType.AzureBlobStorage StorageType.AwsS3
          end) with (targeted storageToUse).
  rewrite resolveContainerName_run, bind_ret_l.
  rewrite resolveBucketName_run, bind_ret_l.
  destruct (hasFlag (targeted storageToUse) StorageType.AzureBlobStorage),
           (hasFlag (targeted storageToUse) StorageType.AwsS3);
    deref;
    rewrite ?azure_uploadFile_run, ?aws_uploadFile_run,
            ?container_resolution, ?bucket_resolution;
    unfold settledByResult, settledByError;
    destruct (truthy (snd (createBlockBlobFromLocalFile sdk (effC c) path localPath)));
    destruct (truthy (fst (upload sdk (effB c b) path localPath
                             (sentContentType sdk localPath contentType))));
    reflexivity.
Qed.

Lemma uploadFileToStorage_resolves (localPath path : string) (storageToUse : option Z)
    (c b contentType : JsStr) :
  exists storages,
    settles (MultiStorageClient.uploadFileToStorage sdk this localPath path
               storageToUse c b contentType) = Resolved storages.
Proof.
  unfold MultiStorageClient.uploadFileToStorage.
  rewrite resolveContainerName_run, bind_ret_l.
  rewrite resolveBucketName_run, bind_ret_l.
  match goal with
  | |- context [hasFlag ?use StorageType.AzureBlobStorage] =>
      destruct (hasFlag use StorageType.AzureBlobStorage),
               (hasFlag use StorageType.AwsS3)
  end;
    deref;
    rewrite ?azure_uploadFile_run, ?aws_uploadFile_run;
    unfold settledByResult, settledByError;
    repeat match goal with
           | |- context [truthy ?x] => destruct (truthy x)
           end;
    eexists; reflexivity.
Qed.

(** [uploadFile] on an initialised client settles as [uploadFileToStorage]
    targeted at both backends does.  The name it is given addresses the
    Azure container; the S3 bucket it addresses is the adapter's default
    bucket whenever one is configured, and the given name only otherwise. *)
Theorem uploadFile_scopes (localPath path : string) (name : JsStr) :
  let run := MultiStorageClient.uploadFile sdk this localPath path name in
  snd run
  = Some (settles (MultiStorageClient.uploadFileToStorage sdk this localPath path
                     (Some StorageType.Both) name None None))
  /\ (exists container bucket logged,
        fst run
        = [EvCreateBlockBlobFromLocalFile container path localPath;
           EvCreateReadStream localPath;
           EvUpload bucket path localPath (sentContentType sdk localPath None)]
          ++ logged
        /\ forallb isConsole logged = true
        /\ container = (if truthyStr name then name else defaultContainer)
        /\ bucket = (if truthyStr defaultBucket then defaultBucket
                     else if truthyStr name then name
                     else if truthyStr defaultContainer then defaultContainer
                     else defaultBucket)).
Proof.
  cbv zeta. unfold MultiStorageClient.uploadFile. cbn [fst snd].
  change (Z.lor StorageType.AzureBlobStorage StorageType.AwsS3) with StorageType.Both.
  split.
  - destruct (uploadFileToStorage_resolves localPath path (Some StorageType.Both)
                name None None) as [storages ->]. reflexivity.
  - rewrite (uploadFileToStorage_trace localPath path (Some StorageType.Both) name None None).
    cbn [targeted StorageType.Both Z.eqb hasFlag Z.land Pos.land negb
         StorageType.AzureBlobStorage StorageType.AwsS3 andb app].
    eexists _, _, _. split; [reflexivity|]. split; [|split; reflexivity].
    destruct (isResolved (settledByResult _)), (isResolved (settledByError _));
      reflexivity.
Qed.

(** ** The calls of a deletion *)

(** [deleteFiles] on an initialised client does not reject.  Azure gets one
    [deleteBlob] per path, in the order of the list and duplicates
    included; S3 then gets one [deleteObjects] for the whole list, also
    when the list is empty.  [deleteFile] is [deleteFiles] on the list of
    its one path. *)
Theorem deletion_calls (filePaths : list string) (filePath : string) (c b : JsStr) :
  trace (MultiStorageClient.deleteFiles sdk this filePaths c b)
  = map (EvDeleteBlob (effC c)) filePaths ++ [EvDeleteObjects (effB c b) filePaths]
  /\ length (trace (MultiStorageClient.deleteFiles sdk this filePaths c b))
     = S (length filePaths)
  /\ (exists result,
        settles (MultiStorageClient.deleteFiles sdk this filePaths c b) = Resolved result)
  /\ MultiStorageClient.deleteFiles sdk this [] c b
     = ([EvDeleteObjects (effB c b) []],
        Resolved (errorOrNull (deleteObjects sdk (effB c b) [])))
  /\ MultiStorageClient.deleteFile sdk this filePath c b
     = ([EvDeleteBlob (effC c) filePath; EvDeleteObjects (effB c b) [filePath]],
        Resolved (errorOrNull (deleteObjects sdk (effB c b) [filePath]))).
Proof.
  unfold MultiStorageClient.deleteFile. rewrite !deleteFiles_run.
  cbn [trace settles fst snd map app].
  split; [reflexivity|]. split; [|split; [|split]].
  - rewrite length_app, length_map. cbn. lia.
  - eexists. reflexivity.
  - destruct (deleteObjects sdk (effB c b) []); reflexivity.
  - destruct (deleteObjects sdk (effB c b) [filePath]); reflexivity.
Qed.

(** The Azure adapter's two deletions issue the same call for one blob and
    disagree on its failure: [deleteFile] rejects with the error
    [deleteBlob] reports, [deleteFiles] is fulfilled whatever it reports. *)
Theorem azure_deleteFile_against_deleteFiles (blobName : string) (c : JsStr) :
  trace (AzureBlobStorageClient.deleteFile sdk azure blobName c)
  = [EvDeleteBlob (effC c) blobName]
  /\ trace (AzureBlobStorageClient.deleteFiles sdk azure [blobName] c)
     = [EvDeleteBlob (effC c) blobName]
  /\ settles (AzureBlobStorageClient.deleteFile sdk azure blobName c)
     = (if truthy (deleteBlob sdk (effC c) blobName)
        then Rejected (deleteBlob sdk (effC c) blobName)
        else Resolved (VObject "response"))
  /\ isResolved (settles (AzureBlobStorageClient.deleteFiles sdk azure [blobName] c))
     = true.
Proof.
  rewrite azure_deleteFiles_resolves.
  unfold AzureBlobStorageClient.deleteFile.
  cbn [AzureBlobStorageClient.initialize AzureBlobStorageClient.azureBlobService
       AzureBlobStorageClient.defaultContainerName member].
  rewrite bind_ret_l.
  replace (jsOr c defaultContainer) with (effC c) by by_truthiness.
  generalize (deleteBlob sdk (effC c) blobName). intros answer.
  unfold bind, emit, ret, throw, trace, settles. cbn [fst snd app map isResolved].
  destruct (truthy answer); repeat split; reflexivity.
Qed.

(** ** Listing the files *)

Lemma azure_listFilesWithPrefix_run (prefix c : JsStr) :
  AzureBlobStorageClient.listFilesWithPrefix sdk azure prefix c
  = ([EvListBlobsSegmentedWithPrefix (jsOr c defaultContainer) prefix],
     match snd (listBlobsSegmentedWithPrefix sdk (jsOr c defaultContainer) prefix) with
     | Some entries => Resolved entries
     | None =>
         Rejected (fst (listBlobsSegmentedWithPrefix sdk (jsOr c defaultContainer) prefix))
     end).
Proof.
  unfold AzureBlobStorageClient.listFilesWithPrefix.
  cbn [AzureBlobStorageClient.initialize AzureBlobStorageClient.azureBlobService
       AzureBlobStorageClient.defaultContainerName member].
  rewrite bind_ret_l.
  destruct (listBlobsSegmentedWithPrefix sdk (jsOr c defaultContainer) prefix)
    as [error [entries|]]; reflexivity.
Qed.

Lemma aws_listFilesWithPrefix_run (prefix b : JsStr) :
  AwsS3Client.listFilesWithPrefix sdk aws prefix b
  = ([EvListObjectsV2 (jsOr b defaultBucket) (if truthyStr prefix then prefix else None)],
     listObjectsV2 sdk (jsOr b defaultBucket) (if truthyStr prefix then prefix else None)).
Proof.
  unfold AwsS3Client.listFilesWithPrefix. cbn.
  destruct (listObjectsV2 sdk (jsOr b defaultBucket) _); reflexivity.
Qed.

(** [listFilesWithPrefix] returns the two listings side by side.  A failed
    Azure listing is logged and leaves null in its place; the S3 listing
    is asked for in either case, without a prefix when the prefix is empty,
    and its failure fails the call. *)
Theorem listFiles_by_outcome (prefix c b : JsStr) :
  let azureListing := listBlobsSegmentedWithPrefix sdk (effC c) prefix in
  let s3Prefix := if truthyStr prefix then prefix else None in
  let run := MultiStorageClient.listFilesWithPrefix sdk this prefix c b in
  trace run
  = EvListBlobsSegmentedWithPrefix (effC c) prefix
    :: match snd azureListing with
       | Some _ => []
       | None => [EvConsoleError
                    ("Failed to list files: " ++ toString (fst azureListing))%string]
       end
    ++ [EvListObjectsV2 (effB c b) s3Prefix]
  /\ settles run
     = match listObjectsV2 sdk (effB c b) s3Prefix with
       | Resolved filesFoundInS3 => Resolved (snd azureListing, filesFoundInS3)
       | Rejected reason => Rejected reason
       end.
Proof.
  cbv zeta. unfold MultiStorageClient.listFilesWithPrefix.
  rewrite resolveContainerName_run, bind_ret_l.
  rewrite resolveBucketName_run, bind_ret_l.
  deref.
  rewrite azure_listFilesWithPrefix_run, container_resolution.
  destruct (listBlobsSegmentedWithPrefix sdk (effC c) prefix) as [error [entries|]];
    cbn [snd fst];
    rewrite ?bind_resolved, ?bind_rejected, ?bind_ret_l;
    cbn [trace settles fst snd ret app];
    rewrite ?tryCatch_resolved, ?tryCatch_rejected, ?emit_then_ret;
    cbn [trace settles fst snd];
    rewrite bind_resolved; deref;
    rewrite aws_listFilesWithPrefix_run, bucket_resolution;
    destruct (listObjectsV2 sdk (effB c b) _); split; reflexivity.
Qed.

Lemma listFiles_trace (prefix c b : JsStr) :
  trace (MultiStorageClient.listFilesWithPrefix sdk this prefix c b)
  = [EvListBlobsSegmentedWithPrefix (effC c) prefix;
     EvListObjectsV2 (effB c b) (if truthyStr prefix then prefix else None)]
  \/ trace (MultiStorageClient.listFilesWithPrefix sdk this prefix c b)
     = [EvListBlobsSegmentedWithPrefix (effC c) prefix;
        EvConsoleError
          ("Failed to list files: "
           ++ toString (fst (listBlobsSegmentedWithPrefix sdk (effC c) prefix)))%string;
        EvListObjectsV2 (effB c b) (if truthyStr prefix then prefix else None)].
Proof.
  unfold MultiStorageClient.listFilesWithPrefix.
  rewrite resolveContainerName_run, bind_ret_l.
  rewrite resolveBucketName_run, bind_ret_l.
  deref.
  rewrite azure_listFilesWithPrefix_run, container_resolution.
  destruct (listBlobsSegmentedWithPrefix sdk (effC c) prefix) as [error [entries|]];
    cbn [snd fst];
    rewrite ?bind_resolved, ?bind_rejected, ?bind_ret_l;
    cbn [trace settles fst snd ret app];
    rewrite ?tryCatch_resolved, ?tryCatch_rejected, ?emit_then_ret;
    cbn [trace settles fst snd];
    rewrite bind_resolved; deref;
    rewrite aws_listFilesWithPrefix_run, bucket_resolution;
    destruct (listObjectsV2 sdk (effB c b) _); [left|left|right|right]; reflexivity.
Qed.

(** ** Methods that only ask *)

(** [storagesContainingFile], [fileExists], [downloadFile] and the two
    listing methods change nothing: every call they issue is a query (a
    probe, a listing, a [getObject]) or a line on the console. *)
Theorem queries_only (path : string) (prefix c b : JsStr) :
  forallb isQuery (trace (MultiStorageClient.storagesContainingFile sdk this path c b))
  = true
  /\ forallb isQuery (trace (MultiStorageClient.fileExists sdk this path c b)) = true
  /\ forallb isQuery (trace (MultiStorageClient.downloadFile sdk this path c b)) = true
  /\ forallb isQuery (trace (MultiStorageClient.listFilesWithPrefix sdk this prefix c b))
     = true
  /\ forallb isQuery (trace (MultiStorageClient.listFileNamesWithPrefix sdk this prefix c b))
     = true.
Proof.
  split; [rewrite storagesContainingFile_run; reflexivity|].
  split.
  { unfold MultiStorageClient.fileExists. rewrite storagesContainingFile_run.
    reflexivity. }
  split.
  { unfold MultiStorageClient.downloadFile. rewrite locate_prefix.
    destruct (azureReportsPresent sdk (effC c) path),
             (s3ReportsPresent sdk (effB c b) path);
      cbn [locationSet Z.eqb StorageType.Undefined StorageType.AwsS3 StorageType.Both
           StorageType.AzureBlobStorage hasFlag Z.land Pos.land negb];
      deref; try reflexivity.
    rewrite aws_downloadFile_run.
    destruct (getObject sdk _ path); reflexivity. }
  split.
  { destruct (listFiles_trace prefix c b) as [-> | ->]; reflexivity. }
  unfold MultiStorageClient.listFileNamesWithPrefix.
  rewrite resolveContainerName_run, bind_ret_l.
  rewrite resolveBucketName_run, bind_ret_l.
  deref.
  rewrite azure_listFileNamesWithPrefix_run.
  destruct (listBlobsSegmentedWithPrefix sdk _ prefix) as [error [entries|]];
    cbn [snd fst];
    rewrite ?tryCatch_resolved, ?tryCatch_rejected, ?emit_then_ret;
    cbn [trace settles fst snd];
    rewrite bind_resolved; deref;
    rewrite aws_listFileNamesWithPrefix_run;
    destruct (listObjectsV2 sdk _ _); reflexivity.
Qed.

(** ** What the probes make of the answers *)

(** [storagesContainingFile] probes both backends on every call, Azure
    first.  Azure is in the Location Set exactly when its probe reports no
    error and a successful status; S3 is in it unless its probe reports an
    error whose code is NotFound, so that any other S3 error counts as
    presence.  [fileExists] issues the same probes and is true exactly when
    one of the two flags is set. *)
Theorem location_set_by_probes (path : string) (c b : JsStr) :
  let azureAnswer := getBlobProperties sdk (effC c) path in
  let s3Error := headObject sdk (effB c b) path in
  exists storages,
    MultiStorageClient.storagesContainingFile sdk this path c b
    = ([EvGetBlobProperties (effC c) path; EvHeadObject (effB c b) path],
       Resolved storages)
    /\ hasFlag storages StorageType.AzureBlobStorage
       = negb (truthy (fst azureAnswer)) && snd azureAnswer
    /\ hasFlag storages StorageType.AwsS3
       = negb (truthy s3Error && strictEqStr (codeOf s3Error) ERROR_CODE_NOT_FOUND)
    /\ MultiStorageClient.fileExists sdk this path c b
       = ([EvGetBlobProperties (effC c) path; EvHeadObject (effB c b) path],
          Resolved (hasFlag storages StorageType.AzureBlobStorage
                    || hasFlag storages StorageType.AwsS3)).
Proof.
  cbv zeta. unfold MultiStorageClient.fileExists.
  rewrite storagesContainingFile_run. eexists. split; [reflexivity|].
  destruct (hasFlag_locationSet
              (azureReportsPresent sdk (effC c) path)
              (s3ReportsPresent sdk (effB c b) path)) as [-> ->].
  split; [reflexivity|]. split; [reflexivity|].
  destruct (azureReportsPresent sdk (effC c) path),
           (s3ReportsPresent sdk (effB c b) path); reflexivity.
Qed.
End Initialized.

(** C1 (as stated) fails: with Azure unreachable (its probe reports a
    timeout) the call does not fail, it returns the empty Location Set. *)
Lemma locate_reports_unreachable_azure_as_absent :
  azureProbeFault azureUnreachableSdk (Some "container") "k" = true
  /\ MultiStorageClient.storagesContainingFile azureUnreachableSdk testClient "k" None None
     = ([EvGetBlobProperties (Some "container") "k"; EvHeadObject (Some "container") "k"],
        Resolved StorageType.Undefined)
  /\ ~ failsOnProbeFault azureUnreachableSdk testClient "k" None None
        (Some "container") (Some "container").
Proof.
  split; [reflexivity|]. split; [reflexivity|].
  intros H. destruct H as [reason H]; [left; reflexivity|].
  discriminate H.
Qed.

(** The same on the S3 side, where an error other than NotFound makes the
    adapter answer that the object exists. *)
Lemma locate_reports_unreachable_s3_as_present :
  let sdk := constantSdk (blobNotFoundError, false) timeoutError
               (VNull, Some []) (Resolved [])
               (VNull, VObject "blob") (Resolved (VObject "payload")) None
               (VNull, VObject "blob") (VNull, VObject "sendData")
               VNull (Resolved (VObject "deleted")) in
  s3ProbeFault sdk (Some "container") "k" = true
  /\ settles (MultiStorageClient.storagesContainingFile sdk testClient "k" None None)
     = Resolved StorageType.AwsS3.
Proof. split; reflexivity. Qed.

Lemma locate_resolves_whatever_the_probes_report_witness :
  exists storages,
    settles (MultiStorageClient.storagesContainingFile azureUnreachableSdk testClient
               "k" None None) = Resolved storages
    /\ (azureProbeError azureUnreachableSdk (Some "container") "k" = true ->
        hasFlag storages StorageType.AzureBlobStorage = false)
    /\ (s3ProbeNotFound azureUnreachableSdk (Some "container") "k" = true ->
        hasFlag storages StorageType.AwsS3 = false).
Proof.
  exact (locate_resolves_whatever_the_probes_report azureUnreachableSdk
           "account" "accessKey" "accessKeyId" "secretAccessKey" "eu-west-2"
           (Some "container") (Some "container") "k" None None).
Defined.

(** C2 (as stated) fails: with the object in both backends, [downloadFile]
    does not return a payload; it returns the error the Azure adapter
    throws, although S3 would have delivered the object. *)
Lemma downloadFile_from_azure_returns_error :
  MultiStorageClient.storagesContainingFile (workingSdk true true [] []) testClient
    "k" None None
  = ([EvGetBlobProperties (Some "container") "k"; EvHeadObject (Some "container") "k"],
     Resolved StorageType.Both)
  /\ getObject (workingSdk true true [] []) (Some "container") "k"
     = Resolved (VObject "payload")
  /\ MultiStorageClient.downloadFile (workingSdk true true [] []) testClient "k" None None
     = ([EvGetBlobProperties (Some "container") "k"; EvHeadObject (Some "container") "k"],
        Resolved (VError "Error" None "Method not implemented"))
  /\ ~ readReturnsPayload (workingSdk true true [] []) testClient "k" None None.
Proof.
  repeat split; try reflexivity.
  intros H. destruct (H StorageType.Both) as [content Hc]; [reflexivity|discriminate|].
  discriminate Hc.
Qed.

Lemma downloadFile_by_location_witness :
  (StorageType.AwsS3 = StorageType.Undefined ->
   MultiStorageClient.downloadFile (workingSdk false true [] []) testClient "k" None None
   = ([EvGetBlobProperties (Some "container") "k"; EvHeadObject (Some "container") "k"],
      Resolved (VString ERROR_CODE_NOT_FOUND)))
  /\ (hasFlag StorageType.AwsS3 StorageType.AzureBlobStorage = true ->
      MultiStorageClient.downloadFile (workingSdk false true [] []) testClient "k" None None
      = ([EvGetBlobProperties (Some "container") "k"; EvHeadObject (Some "container") "k"],
         Resolved (newError "Method not implemented")))
  /\ (StorageType.AwsS3 = StorageType.AwsS3 ->
      MultiStorageClient.downloadFile (workingSdk false true [] []) testClient "k" None None
      = ([EvGetBlobProperties (Some "container") "k"; EvHeadObject (Some "container") "k"]
           ++ [EvGetObject (Some "container") "k"],
         Resolved (VObject "payload"))).
Proof.
  apply (downloadFile_by_location (workingSdk false true [] [])
           "account" "accessKey" "accessKeyId" "secretAccessKey" "eu-west-2"
           (Some "container") (Some "container") "k" None None StorageType.AwsS3).
  reflexivity.
Defined.

(** C7, at a path that is in neither backend. *)
Lemma absent_everywhere_witness :
  MultiStorageClient.storagesContainingFile (workingSdk false false [] []) testClient
    "k" None None
  = ([EvGetBlobProperties (Some "container") "k"; EvHeadObject (Some "container") "k"],
     Resolved StorageType.Undefined)
  /\ MultiStorageClient.fileExists (workingSdk false false [] []) testClient "k" None None
     = ([EvGetBlobProperties (Some "container") "k"; EvHeadObject (Some "container") "k"],
        Resolved false)
  /\ MultiStorageClient.downloadFile (workingSdk false false [] []) testClient "k" None None
     = ([EvGetBlobProperties (Some "container") "k"; EvHeadObject (Some "container") "k"],
        Resolved (VString "NotFound"))
  /\ MultiStorageClient.downloadFileToDisk (workingSdk false false [] []) testClient
       "k" "local.jpg" None None
     = ([EvGetBlobProperties (Some "container") "k"; EvHeadObject (Some "container") "k"],
        Resolved (VString "NotFound"))
  /\ MultiStorageClient.downloadFileToDiskAndReplicateIfNecessary
       (workingSdk false false [] []) testClient "k" "local.jpg" None None
     = ([EvGetBlobProperties (Some "container") "k"; EvHeadObject (Some "container") "k"],
        Resolved (VString "NotFound"))
  /\ existsb writesLocalFile
       (trace (MultiStorageClient.downloadFile (workingSdk false false [] []) testClient
                 "k" None None)
        ++ trace (MultiStorageClient.downloadFileToDisk (workingSdk false false [] [])
                    testClient "k" "local.jpg" None None)
        ++ trace (MultiStorageClient.downloadFileToDiskAndReplicateIfNecessary
                    (workingSdk false false [] []) testClient "k" "local.jpg" None None))
     = false.
Proof.
  apply (absent_everywhere (workingSdk false false [] [])
           "account" "accessKey" "accessKeyId" "secretAccessKey" "eu-west-2"
           (Some "container") (Some "container") "k" "local.jpg" None None);
    reflexivity.
Defined.

(** C4, at an object that is in Azure only. *)
Lemma replication_by_location_witness :
  trace (MultiStorageClient.downloadFileToDiskAndReplicateIfNecessary
           (workingSdk true false [] []) testClient "k" "local.jpg" None None)
  = [EvGetBlobProperties (Some "container") "k"; EvHeadObject (Some "container") "k";
     EvGetBlobToLocalFile (Some "container") "k" "local.jpg";
     EvCreateReadStream "local.jpg";
     EvUpload (Some "container") "k" "local.jpg" "application/octet-stream"].
Proof.
  apply (replication_by_location (workingSdk true false [] [])
           "account" "accessKey" "accessKeyId" "secretAccessKey" "eu-west-2"
           (Some "container") (Some "container") "k" "local.jpg" None None
           StorageType.AzureBlobStorage);
    reflexivity.
Defined.

(** C5, at a write to both backends whose store into S3 fails. *)
Lemma upload_reports_where_it_landed_witness :
  exists storages,
    settles (MultiStorageClient.uploadFileToStorage s3StoreFailsSdk testClient
               "local.jpg" "k" (Some StorageType.Both) None None None)
    = Resolved storages
    /\ storages = StorageType.AzureBlobStorage.
Proof.
  destruct (upload_reports_where_it_landed s3StoreFailsSdk
              "account" "accessKey" "accessKeyId" "secretAccessKey" "eu-west-2"
              (Some "container") (Some "container")
              "local.jpg" "k" (Some StorageType.Both) None None None)
    as [storages [Hrun [_ [_ [_ Hboth]]]]].
  exists storages. split; [exact Hrun|].
  apply Hboth; reflexivity.
Defined.

(** C3 (as stated) fails: with the S3 listing failing and the Azure
    listing returning a name, the call does not return Azure's names; it
    fails with the S3 error. *)
Lemma listing_fails_with_the_s3_listing :
  snd (listBlobsSegmentedWithPrefix s3ListingFailsSdk (Some "container") (Some "a"))
  = Some ["a.jpg"]
  /\ listObjectsV2 s3ListingFailsSdk (Some "container") (Some "a") = Rejected timeoutError
  /\ MultiStorageClient.listFileNamesWithPrefix s3ListingFailsSdk testClient
       (Some "a") None None
     = ([EvListBlobsSegmentedWithPrefix (Some "container") (Some "a");
         EvListObjectsV2 (Some "container") (Some "a")],
        Rejected timeoutError)
  /\ ~ listsBothBackends
        (MultiStorageClient.listFileNamesWithPrefix s3ListingFailsSdk testClient
           (Some "a") None None)
        (Some ["a.jpg"]) None.
Proof.
  repeat split; try reflexivity.
  intros H. discriminate H.
Qed.

(** The names S3 lists are not in the result: [concat] does not change the
    array it is called on, and its value is dropped. *)
Lemma listing_leaves_out_s3_names :
  MultiStorageClient.listFileNamesWithPrefix (workingSdk true true ["a.jpg"] ["b.jpg"])
    testClient (Some "a") None None
  = ([EvListBlobsSegmentedWithPrefix (Some "container") (Some "a");
      EvListObjectsV2 (Some "container") (Some "a")],
     Resolved ["a.jpg"]).
Proof. reflexivity. Qed.

(** C3 (as amended), at a call whose S3 listing fails. *)
Lemma listing_by_outcome_witness :
  settles (MultiStorageClient.listFileNamesWithPrefix s3ListingFailsSdk testClient
             (Some "a") None None)
  = Rejected timeoutError.
Proof.
  apply (listing_by_outcome s3ListingFailsSdk
           "account" "accessKey" "accessKeyId" "secretAccessKey" "eu-west-2"
           (Some "container") (Some "container") (Some "a") None None).
  reflexivity.
Defined.

(** C8 (as stated) fails: with no container name given, an empty Azure
    default and a configured S3 bucket, the Azure probe addresses the empty
    container name, not the bucket's. *)
Lemma container_does_not_fall_back_to_bucket :
  MultiStorageClient.storagesContainingFile (workingSdk false false [] []) bucketOnlyClient
    "k" None None
  = ([EvGetBlobProperties (Some "") "k"; EvHeadObject (Some "bucket") "k"],
     Resolved StorageType.Undefined)
  /\ specContainer None (Some "") (Some "bucket") = Some "bucket"
  /\ specBucket None (Some "") (Some "bucket") = Some "bucket"
  /\ ~ (forall (c b dc db : JsStr) (path : string),
          trace (MultiStorageClient.storagesContainingFile (workingSdk false false [] [])
                   (MultiStorageClient.initialize MultiStorageClient.new
                      "account" "accessKey" "accessKeyId" "secretAccessKey" "eu-west-2"
                      dc db)
                   path c b)
          = [EvGetBlobProperties (specContainer c dc db) path;
             EvHeadObject (specBucket b dc db) path]).
Proof.
  repeat split; try reflexivity.
  intros H. specialize (H None None (Some "") (Some "bucket") "k").
  discriminate H.
Qed.

(** ** Deleting *)

(** The two [try] blocks of [deleteFiles]: each adapter's rejection is
    caught on its own, and the later one is the result. *)
Lemma deleteFiles_keeps_latest_rejection (sdk : Sdk)
    (azure : AzureBlobStorageClient.t) (aws : AwsS3Client.t)
    (filePaths : list string) (c b : JsStr) :
  truthyStr c = true -> truthyStr b = true ->
  let this := {| MultiStorageClient.azureBlobStorageClient := RefObj azure;
                 MultiStorageClient.awsS3Client := RefObj aws |} in
  MultiStorageClient.deleteFiles sdk this filePaths c b
  = (trace (AzureBlobStorageClient.deleteFiles sdk azure filePaths c)
       ++ trace (AwsS3Client.deleteFiles sdk aws filePaths b),
     Resolved
       match settles (AwsS3Client.deleteFiles sdk aws filePaths b) with
       | Rejected error => error
       | Resolved _ =>
           match settles (AzureBlobStorageClient.deleteFiles sdk azure filePaths c) with
           | Rejected error => error
           | Resolved _ => VNull
           end
       end).
Proof.
  intros Hc Hb this.
  unfold MultiStorageClient.deleteFiles, MultiStorageClient.resolveContainerName,
    MultiStorageClient.resolveBucketName.
  rewrite Hc, Hb, !bind_ret_l, (jsOr_truthy b c Hb).
  cbn [this MultiStorageClient.azureBlobStorageClient MultiStorageClient.awsS3Client member].
  rewrite bind_ret_l.
  destruct (AzureBlobStorageClient.deleteFiles sdk azure filePaths c) as [ta [va|ea]];
    unfold start at 1; cbn [fst snd]; rewrite bind_resolved, bind_ret_l;
    destruct (AwsS3Client.deleteFiles sdk aws filePaths b) as [ts [vs|es]];
    cbn; rewrite ?app_nil_r; reflexivity.
Qed.

(** C6, where the code departs from it: Azure's [deleteBlob] reports an
    error for the blob, the S3 deletion succeeds, and [deleteFiles] returns
    null. *)
Theorem deleteFiles_drops_azure_failure :
  truthy (deleteBlob azureDeleteFailsSdk (Some "container") "k") = true
  /\ deleteObjects azureDeleteFailsSdk (Some "container") ["k"]
     = Resolved (VObject "deleted")
  /\ MultiStorageClient.deleteFiles azureDeleteFailsSdk testClient ["k"] None None
     = ([EvDeleteBlob (Some "container") "k"; EvDeleteObjects (Some "container") ["k"]],
        Resolved VNull).
Proof. repeat split; reflexivity. Qed.

(** C9. [fileExists] returns true exactly when [storagesContainingFile],
    called with the same arguments, returns a Location Set other than
    [StorageType.Undefined]; it returns false exactly when that set is
    [Undefined], and fails exactly when [storagesContainingFile] fails. *)
Theorem fileExists_iff_located (sdk : Sdk) (this : MultiStorageClient.t)
    (path : string) (c b : JsStr) :
  (settles (MultiStorageClient.fileExists sdk this path c b) = Resolved true
   <-> exists storages,
         settles (MultiStorageClient.storagesContainingFile sdk this path c b)
         = Resolved storages
         /\ storages <> StorageType.Undefined)
  /\ (settles (MultiStorageClient.fileExists sdk this path c b) = Resolved false
      <-> settles (MultiStorageClient.storagesContainingFile sdk this path c b)
          = Resolved StorageType.Undefined)
  /\ (forall reason,
        settles (MultiStorageClient.fileExists sdk this path c b) = Rejected reason
        <-> settles (MultiStorageClient.storagesContainingFile sdk this path c b)
            = Rejected reason).
Proof.
  unfold MultiStorageClient.fileExists.
  destruct (MultiStorageClient.storagesContainingFile sdk this path c b)
    as [t [storages|reason]]; cbn.
  - destruct (Z.eqb_spec storages StorageType.Undefined) as [->|Hne]; cbn.
    + split; [split|split; [split|intros reason; split]];
        intros H; try discriminate H; try reflexivity.
      destruct H as [st [Hst Hne]]. injection Hst as <-. now elim Hne.
    + split; [split|split; [split|intros reason; split]];
        intros H; try discriminate H; try reflexivity.
      * now exists storages.
      * injection H as ->. now elim Hne.
  - split; [split|split; [split|intros r; split]];
      intros H; try discriminate H; try (injection H as ->; reflexivity).
    destruct H as [st [H _]]. discriminate H.
Qed.

(** ** Initialisation *)

(** C10. On a freshly constructed client [isInitialized] does not return
    false: the member access on the null adapter field throws.  Each
    adapter's own [isInitialized] is true on a freshly constructed adapter,
    whose client field is null and is compared against undefined. *)
Theorem isInitialized_on_fresh_client :
  MultiStorageClient.isInitialized MultiStorageClient.new = ([], Rejected typeError)
  /\ settles (MultiStorageClient.isInitialized MultiStorageClient.new) <> Resolved false
  /\ AzureBlobStorageClient.azureBlobService AzureBlobStorageClient.new = RefNull
  /\ AzureBlobStorageClient.isInitialized AzureBlobStorageClient.new = true
  /\ AwsS3Client.s3Client AwsS3Client.new = RefNull
  /\ AwsS3Client.isInitialized AwsS3Client.new = true.
Proof. repeat split; try reflexivity. discriminate. Qed.

(** * Further properties: clients and adapters that are not ready *)

Lemma fresh_prefix {A : Type} (c b : JsStr) (k : JsStr -> JsStr -> M A) :
  (forall containerName bucketName, k containerName bucketName = ([], Rejected typeError)) ->
  (containerName <- MultiStorageClient.resolveContainerName MultiStorageClient.new c ;;
   bucketName <- MultiStorageClient.resolveBucketName MultiStorageClient.new b
                   containerName ;;
   k containerName bucketName)
  = ([], Rejected typeError).
Proof.
  intros Hk.
  unfold MultiStorageClient.resolveContainerName, MultiStorageClient.resolveBucketName.
  destruct (truthyStr c); [|reflexivity].
  rewrite bind_ret_l.
  destruct (truthyStr b); [|reflexivity].
  rewrite !bind_ret_l. apply Hk.
Qed.

Lemma fresh_prefix_console {A : Type} (c b : JsStr) (k : JsStr -> JsStr -> M A) :
  (forall containerName bucketName,
     settles (k containerName bucketName) = Rejected typeError
     /\ forallb isConsole (trace (k containerName bucketName)) = true) ->
  let run :=
    (containerName <- MultiStorageClient.resolveContainerName MultiStorageClient.new c ;;
     bucketName <- MultiStorageClient.resolveBucketName MultiStorageClient.new b
                     containerName ;;
     k containerName bucketName) in
  settles run = Rejected typeError /\ forallb isConsole (trace run) = true.
Proof.
  intros Hk. cbv zeta.
  unfold MultiStorageClient.resolveContainerName, MultiStorageClient.resolveBucketName.
  destruct (truthyStr c); [|split; reflexivity].
  rewrite bind_ret_l.
  destruct (truthyStr b); [|split; reflexivity].
  rewrite !bind_ret_l. apply Hk.
Qed.

Lemma fresh_storagesContainingFile (sdk : Sdk) (path : string) (c b : JsStr) :
  MultiStorageClient.storagesContainingFile sdk MultiStorageClient.new path c b
  = ([], Rejected typeError).
Proof.
  unfold MultiStorageClient.storagesContainingFile.
  apply fresh_prefix. reflexivity.
Qed.

(** Before [initialize] every asynchronous method of the multi client
    rejects with the TypeError of the member access on the null adapter
    field, and no storage call is issued; [uploadFile] issues none either,
    and its promise never settles. *)
Theorem uninitialised_client_rejects (sdk : Sdk) (path localPath : string)
    (filePaths : list string) (prefix c b contentType : JsStr) (storageToUse : option Z) :
  let this := MultiStorageClient.new in
  MultiStorageClient.storagesContainingFile sdk this path c b = ([], Rejected typeError)
  /\ MultiStorageClient.fileExists sdk this path c b = ([], Rejected typeError)
  /\ MultiStorageClient.downloadFile sdk this path c b = ([], Rejected typeError)
  /\ MultiStorageClient.downloadFileToDisk sdk this path localPath c b
     = ([], Rejected typeError)
  /\ MultiStorageClient.downloadFileToDiskAndReplicateIfNecessary sdk this path localPath c b
     = ([], Rejected typeError)
  /\ MultiStorageClient.deleteFiles sdk this filePaths c b = ([], Rejected typeError)
  /\ MultiStorageClient.deleteFile sdk this path c b = ([], Rejected typeError)
  /\ MultiStorageClient.uploadFile sdk this localPath path c = ([], None)
  /\ (hasFlag (targeted storageToUse) StorageType.AzureBlobStorage
      || hasFlag (targeted storageToUse) StorageType.AwsS3 = true ->
      MultiStorageClient.uploadFileToStorage sdk this localPath path storageToUse
        c b contentType
      = ([], Rejected typeError))
  /\ settles (MultiStorageClient.listFilesWithPrefix sdk this prefix c b)
     = Rejected typeError
  /\ forallb isConsole (trace (MultiStorageClient.listFilesWithPrefix sdk this prefix c b))
     = true
  /\ settles (MultiStorageClient.listFileNamesWithPrefix sdk this prefix c b)
     = Rejected typeError
  /\ forallb isConsole
       (trace (MultiStorageClient.listFileNamesWithPrefix sdk this prefix c b))
     = true.
Proof.
  cbv zeta.
  split; [apply fresh_storagesContainingFile|].
  split.
  { unfold MultiStorageClient.fileExists. rewrite fresh_storagesContainingFile.
    reflexivity. }
  split.
  { unfold MultiStorageClient.downloadFile. apply fresh_prefix. intros c1 b1.
    rewrite fresh_storagesContainingFile. reflexivity. }
  split.
  { unfold MultiStorageClient.downloadFileToDisk. apply fresh_prefix. intros c1 b1.
    rewrite fresh_storagesContainingFile. reflexivity. }
  split.
  { unfold MultiStorageClient.downloadFileToDiskAndReplicateIfNecessary.
    apply fresh_prefix. intros c1 b1.
    rewrite fresh_storagesContainingFile. reflexivity. }
  split.
  { unfold MultiStorageClient.deleteFiles. apply fresh_prefix. reflexivity. }
  split.
  { unfold MultiStorageClient.deleteFile, MultiStorageClient.deleteFiles.
    apply fresh_prefix. reflexivity. }
  split.
  { unfold MultiStorageClient.uploadFile, MultiStorageClient.uploadFileToStorage,
      MultiStorageClient.resolveContainerName, MultiStorageClient.resolveBucketName.
    destruct (truthyStr c); reflexivity. }
  split.
  { intros Htargeted. unfold MultiStorageClient.uploadFileToStorage.
    change (match storageToUse with
            | Some s => if s =? 0
                        then Z.lor StorageType.AzureBlobStorage StorageType.AwsS3 else s
            | None => Z.lor StorageType.AzureBlobStorage StorageType.AwsS3
            end) with (targeted storageToUse).
    apply fresh_prefix. intros c1 b1.
    destruct (hasFlag (targeted storageToUse) StorageType.AzureBlobStorage),
             (hasFlag (targeted storageToUse) StorageType.AwsS3);
      try discriminate Htargeted; reflexivity. }
  rewrite <- !and_assoc. rewrite and_assoc. split.
  - unfold MultiStorageClient.listFilesWithPrefix.
    apply fresh_prefix_console. intros c1 b1. split; reflexivity.
  - unfold MultiStorageClient.listFileNamesWithPrefix.
    apply fresh_prefix_console. intros c1 b1. split; reflexivity.
Qed.

(** [isInitialized] never returns false on a client a program can hold: it
    throws on the constructed client, and returns true once [initialize]
    has returned, however often it is called. *)
Theorem isInitialized_never_false (this : MultiStorageClient.t)
    (Hthis : constructed this) :
  (this = MultiStorageClient.new
   /\ MultiStorageClient.isInitialized this = ([], Rejected typeError))
  \/ MultiStorageClient.isInitialized this = ([], Resolved true).
Proof.
  destruct Hthis as [|this accountName accessKey accessKeyId secretAccessKey region
                       defaultContainer defaultBucket _].
  - left. split; reflexivity.
  - right. reflexivity.
Qed.

Lemma isInitialized_never_false_witness :
  MultiStorageClient.isInitialized
    (MultiStorageClient.initialize testClient "other" "key" "id" "secret" "eu-west-1"
       None None)
  = ([], Resolved true).
Proof.
  destruct (isInitialized_never_false
              (MultiStorageClient.initialize testClient "other" "key" "id" "secret"
                 "eu-west-1" None None)) as [[Hnew _]|Htrue].
  - apply constructed_initialize. apply constructed_initialize. apply constructed_new.
  - discriminate Hnew.
  - exact Htrue.
Defined.

(** [AwsS3Client.deleteFile] deletes nothing: whatever the client and the
    arguments, its promise is rejected with a TypeError before
    [deleteObject] is called. *)
Theorem aws_deleteFile_always_rejects
    (deleteObject : JsStr -> string -> list Event * (JsVal * JsVal))
    (this : AwsS3Client.t) (fileKey : string) (bucketName : JsStr) :
  AwsS3Client.deleteFile deleteObject this fileKey bucketName = ([], Rejected typeError).
Proof. reflexivity. Qed.

(** An Azure adapter without its SDK client (as constructed: the field is
    null, and [isInitialized] is true all the same) rejects every call that
    needs the client, with a TypeError and before any storage call.
    [deleteFiles] needs it once per blob name: on the empty list it is
    fulfilled. *)
Theorem azure_adapter_without_service (sdk : Sdk) (this : AzureBlobStorageClient.t)
    (blobName localPath : string) (blobNames : list string) (prefix c : JsStr)
    (Hservice : noService (AzureBlobStorageClient.azureBlobService this) = true) :
  AzureBlobStorageClient.fileExists sdk this blobName c = ([], Rejected typeError)
  /\ AzureBlobStorageClient.listFilesWithPrefix sdk this prefix c = ([], Rejected typeError)
  /\ AzureBlobStorageClient.listFileNamesWithPrefix sdk this prefix c
     = ([], Rejected typeError)
  /\ AzureBlobStorageClient.downloadFileToDisk sdk this blobName localPath c
     = ([], Rejected typeError)
  /\ AzureBlobStorageClient.uploadFile sdk this localPath blobName c
     = ([], Rejected typeError)
  /\ AzureBlobStorageClient.deleteFile sdk this blobName c = ([], Rejected typeError)
  /\ AzureBlobStorageClient.deleteFiles sdk this (blobName :: blobNames) c
     = ([], Rejected typeError)
  /\ AzureBlobStorageClient.deleteFiles sdk this [] c = ([], Resolved (VObject "Array")).
Proof.
  destruct this as [[| |service] defaultContainer]; try discriminate Hservice;
    repeat split; reflexivity.
Qed.

Lemma azure_adapter_without_service_witness :
  AzureBlobStorageClient.isInitialized AzureBlobStorageClient.new = true
  /\ AzureBlobStorageClient.fileExists (workingSdk true true [] [])
       AzureBlobStorageClient.new "k" None
     = ([], Rejected typeError).
Proof.
  split; [reflexivity|].
  apply (azure_adapter_without_service (workingSdk true true [] [])
           AzureBlobStorageClient.new "k" "local.jpg" [] None None).
  reflexivity.
Defined.



(** * Further properties: Location Sets *)

(** Whatever the state of the client, a Location Set that
    [storagesContainingFile] returns is one of the four values of
    [StorageType]. *)
Theorem location_set_in_range (sdk : Sdk) (this : MultiStorageClient.t)
    (path : string) (c b : JsStr) (storages : Z)
    (Hlocate : settles (MultiStorageClient.storagesContainingFile sdk this path c b)
               = Resolved storages) :
  In storages storageTypes.
Proof.
  revert Hlocate.
  unfold MultiStorageClient.storagesContainingFile.
  destruct (MultiStorageClient.resolveContainerName this c) as [t1 [c1|e1]];
    [|discriminate].
  rewrite bind_resolved.
  destruct (MultiStorageClient.resolveBucketName this b c1) as [t2 [b1|e2]];
    [|discriminate].
  rewrite bind_resolved. cbn [settles snd].
  destruct (member (MultiStorageClient.azureBlobStorageClient this)) as [t3 [azure|e3]];
    [|discriminate].
  rewrite bind_resolved. cbn [settles snd].
  destruct (AzureBlobStorageClient.fileExists sdk azure path c1) as [t4 [inAzure|e4]];
    [|discriminate].
  rewrite bind_resolved. cbn [settles snd].
  destruct (member (MultiStorageClient.awsS3Client this)) as [t5 [aws|e5]];
    [|discriminate].
  rewrite bind_resolved. cbn [settles snd].
  destruct (AwsS3Client.fileExists sdk aws path b1) as [t6 [inS3|e6]];
    [|discriminate].
  rewrite bind_resolved. cbn [settles snd ret].
  intros Hst. injection Hst as <-.
  destruct inAzure, inS3; cbn; auto.
Qed.

Lemma location_set_in_range_witness :
  In StorageType.AwsS3 storageTypes.
Proof.
  apply (location_set_in_range (workingSdk false true [] []) testClient "k" None None).
  reflexivity.
Defined.

(** ** Witnesses of the properties of the reads *)

Lemma downloadFileToDisk_by_location_witness :
  MultiStorageClient.downloadFileToDisk (workingSdk true true [] []) testClient
    "k" "local.jpg" None None
  = ([EvGetBlobProperties (Some "container") "k"; EvHeadObject (Some "container") "k";
      EvGetBlobToLocalFile (Some "container") "k" "local.jpg"],
     Resolved VNull).
Proof.
  destruct (downloadFileToDisk_by_location (workingSdk true true [] [])
              "account" "accessKey" "accessKeyId" "secretAccessKey" "eu-west-2"
              (Some "container") (Some "container") "k" "local.jpg" None None
              StorageType.Both eq_refl) as [_ [Hazure _]].
  apply Hazure. reflexivity.
Defined.


Lemma replication_extends_plain_read_witness :
  MultiStorageClient.downloadFileToDiskAndReplicateIfNecessary (workingSdk true true [] [])
    testClient "k" "local.jpg" None None
  = MultiStorageClient.downloadFileToDisk (workingSdk true true [] []) testClient
      "k" "local.jpg" None None.
Proof.
  destruct (replication_extends_plain_read (workingSdk true true [] [])
              "account" "accessKey" "accessKeyId" "secretAccessKey" "eu-west-2"
              (Some "container") (Some "container") "k" "local.jpg" None None
              StorageType.Both eq_refl) as [_ Hsame].
  apply Hsame. left. reflexivity.
Defined.
